(** * WebTransport echo server: [video_echo/py_server/server.py]

    A shallow embedding of the per-connection routing layer of the echo
    server (the four echo handlers and [WebTransportProtocol]) and the
    properties of it that the specification states.

    Conventions:
    - Python [bytes] values are [string]s (one [ascii] per byte), Python
      [int]s are [Z], a [dict] is a [gmap];
    - every method is a function in the monad [Py S], which threads the
      receiver object of class [S] and the list of calls made on the
      outside world, and which can raise a Python exception;
    - aioquic is outside the repository: calls into it are appended to the
      call list and are taken to return normally; the values it hands
      back are read from a [Transport] oracle. *)

From Stdlib Require Import ZArith String Ascii.
From stdpp Require Import base option list gmap strings pretty.

Local Open Scope Z_scope.
Local Open Scope string_scope.
Local Open Scope list_scope.

Abbreviation bytes := string.

(** ** Events delivered by aioquic *)

(** [aioquic.h3.events]; the fields are in the order of the dataclasses. *)
Inductive H3Event :=
| HeadersReceived (headers : list (bytes * bytes)) (stream_id : Z)
    (stream_ended : bool)
| DataReceived (data : bytes) (stream_id : Z) (stream_ended : bool)
| WebTransportStreamDataReceived (data : bytes) (stream_id : Z)
    (stream_ended : bool) (session_id : Z)
| DatagramReceived (data : bytes) (flow_id : Z)
| PushPromiseReceived (headers : list (bytes * bytes)) (push_id : Z)
    (stream_id : Z).

(** [aioquic.quic.events]; only the first two classes are inspected by the
    server, the others are passed on to the HTTP/3 layer. *)
Inductive QuicEvent :=
| ProtocolNegotiated (alpn_protocol : option string)
| StreamReset (error_code : Z) (stream_id : Z)
| StreamDataReceived (data : bytes) (end_stream : bool) (stream_id : Z)
| DatagramFrameReceived (data : bytes)
| HandshakeCompleted
| ConnectionTerminated (error_code : Z).

(** ** The outside world *)

(** An [H3ConnectionWithDatagram] object, named by its creation rank. *)
Definition H3Ref := nat.

(** Calls that leave the modelled code, in program order.  The last three
    constructors mark the places where [WebTransportProtocol] calls a method
    of its handler. *)
Inductive Call :=
| New_H3ConnectionWithDatagram (enable_webtransport : bool)
| Http_handle_event (http : H3Ref) (event : QuicEvent)
| Http_create_webtransport_stream (http : H3Ref) (session_id : Z)
    (is_unidirectional : bool)
| Quic_send_stream_data (stream_id : Z) (data : bytes) (end_stream : bool)
| Http_send_datagram (http : H3Ref) (flow_id : Z) (data : bytes)
| Http_send_headers (http : H3Ref) (stream_id : Z)
    (headers : list (bytes * bytes)) (end_stream : bool)
| Protocol_transmit
| Builtin_print (line : string)
| Handler_h3_event_received (event : H3Event)
| Handler_stream_closed (stream_id : Z)
| Handler_session_closed.

(** What aioquic returns, as a function of the calls made so far (the call
    that is being answered included). *)
Class Transport := {
  created_stream_id : list Call -> Z;
  decoded_h3_events : list Call -> list H3Event
}.

(** ** Python exceptions and the method monad *)

Inductive Exception :=
| AssertionError
| AttributeError (type_name attribute : string)
| KeyError (key : Z).

Inductive Outcome (A : Type) :=
| Return (a : A)
| Raise (e : Exception).
Arguments Return {A} a.
Arguments Raise {A} e.

Record Run (S A : Type) := MkRun {
  outcome : Outcome A;
  self : S;
  trace : list Call
}.
Arguments MkRun {S A} outcome self trace.
Arguments outcome {S A} r.
Arguments self {S A} r.
Arguments trace {S A} r.

Definition Py (S A : Type) : Type := S -> list Call -> Run S A.

#[global] Instance Py_ret {S} : MRet (Py S) :=
  fun A a s tr => MkRun (Return a) s tr.

#[global] Instance Py_bind {S} : MBind (Py S) :=
  fun A B k m s tr =>
    match m s tr with
    | MkRun (Return a) s' tr' => k a s' tr'
    | MkRun (Raise e) s' tr' => MkRun (Raise e) s' tr'
    end.

Definition pass {S} : Py S unit := mret tt.

Definition raise {S A} (e : Exception) : Py S A :=
  fun s tr => MkRun (Raise e) s tr.

Definition getattr {S A} (field : S -> A) : Py S A :=
  fun s tr => MkRun (Return (field s)) s tr.

Definition setattr {S} (update : S -> S) : Py S unit :=
  fun s tr => MkRun (Return tt) (update s) tr.

Definition call {S} (c : Call) : Py S unit :=
  fun s tr => MkRun (Return tt) s (tr ++ [c]).

Definition history {S} : Py S (list Call) :=
  fun s tr => MkRun (Return tr) s tr.

(** [try: body / except KeyError: handler] *)
Definition try_except_KeyError {S} (body handler : Py S unit) : Py S unit :=
  fun s tr =>
    match body s tr with
    | MkRun (Raise (KeyError _)) s' tr' => handler s' tr'
    | r => r
    end.

(** [for x in xs: body x] *)
Fixpoint for_each {S A} (xs : list A) (body : A -> Py S unit) : Py S unit :=
  match xs with
  | [] => pass
  | x :: xs' => body x ;; for_each xs' body
  end.

(** ** Python built-ins used by the server *)

(** [del d[k]] *)
Definition dict_delitem {S} (d : gmap Z Z) (k : Z) : Py S (gmap Z Z) :=
  match d !! k with
  | Some _ => mret (delete k d)
  | None => raise (KeyError k)
  end.

(** [d[k]] on a [defaultdict(int)]: a missing key is inserted with value
    [int() = 0]. *)
Definition defaultdict_getitem (d : gmap Z Z) (k : Z) : Z * gmap Z Z :=
  match d !! k with
  | Some v => (v, d)
  | None => (0, <[k:=0]> d)
  end.

(** [len(b)] and [b[i]] on [bytes]; the index is in range wherever the
    server evaluates [b[i]]. *)
Definition len (b : bytes) : Z := Z.of_nat (String.length b).

Definition byte_at (b : bytes) (i : nat) : option Z :=
  (fun c => Z.of_N (N_of_ascii c)) <$> String.get i b.

(** [str(n).encode()] *)
Definition str (n : Z) : bytes := pretty n.
Arguments str : simpl never.

(** The [dict] built from a header list: later fields win. *)
Definition headers_dict (hs : list (bytes * bytes)) : gmap string string :=
  foldl (fun d hv => <[hv.1:=hv.2]> d) ∅ hs.

(** [self._http.create_webtransport_stream(...)],
    [self._http._quic.send_stream_data(...)], [self._http.send_datagram(...)],
    [self._http.send_headers(...)] and [self._http.handle_event(...)]; the
    attribute access fails on [None]. *)
Definition create_webtransport_stream `{Transport} {S} (http : option H3Ref)
    (session_id : Z) (is_unidirectional : bool) : Py S Z :=
  match http with
  | None => raise (AttributeError "NoneType" "create_webtransport_stream")
  | Some c =>
      call (Http_create_webtransport_stream c session_id is_unidirectional) ;;
      tr ← history; mret (created_stream_id tr)
  end.

Definition send_stream_data {S} (http : option H3Ref) (stream_id : Z)
    (data : bytes) (end_stream : bool) : Py S unit :=
  match http with
  | None => raise (AttributeError "NoneType" "_quic")
  | Some _ => call (Quic_send_stream_data stream_id data end_stream)
  end.

Definition send_datagram {S} (http : option H3Ref) (flow_id : Z)
    (data : bytes) : Py S unit :=
  match http with
  | None => raise (AttributeError "NoneType" "send_datagram")
  | Some c => call (Http_send_datagram c flow_id data)
  end.

Definition send_headers {S} (http : option H3Ref) (stream_id : Z)
    (headers : list (bytes * bytes)) (end_stream : bool) : Py S unit :=
  match http with
  | None => raise (AttributeError "NoneType" "send_headers")
  | Some c => call (Http_send_headers c stream_id headers end_stream)
  end.

Definition handle_event `{Transport} {S} (c : H3Ref) (event : QuicEvent)
    : Py S (list H3Event) :=
  call (Http_handle_event c event) ;;
  tr ← history; mret (decoded_h3_events tr).

(** ** The four echo handlers *)

Module AudioEchoStream.

Record t := {
  _session_id : Z;
  _http : option H3Ref;
  _echo_stream_id : gmap Z Z
}.

Definition set_echo_stream_id (d : gmap Z Z) (o : t) : t :=
  {| _session_id := _session_id o; _http := _http o;
     _echo_stream_id := d |}.

Definition __init__ (session_id : Z) (http : option H3Ref) : t :=
  {| _session_id := session_id; _http := http; _echo_stream_id := ∅ |}.

Definition stream_closed (stream_id : Z) : Py t unit :=
  try_except_KeyError
    (d ← getattr _echo_stream_id;
     d' ← dict_delitem d stream_id;
     setattr (set_echo_stream_id d'))
    pass.

Definition h3_event_received `{Transport} (event : H3Event) : Py t unit :=
  match event with
  | WebTransportStreamDataReceived data stream_id stream_ended _ =>
      d ← getattr _echo_stream_id;
      (if bool_decide (stream_id ∉ dom d) then
         http ← getattr _http;
         session_id ← getattr _session_id;
         new_id ← create_webtransport_stream http session_id true;
         setattr (fun o => set_echo_stream_id
                             (<[stream_id:=new_id]> (_echo_stream_id o)) o)
       else pass) ;;
      http ← getattr _http;
      match http with
      | None => raise (AttributeError "NoneType" "_quic")
      | Some _ =>
          d ← getattr _echo_stream_id;
          let (echo_id, d') := defaultdict_getitem d stream_id in
          setattr (set_echo_stream_id d') ;;
          send_stream_data http echo_id data stream_ended ;;
          if stream_ended then stream_closed stream_id else pass
      end
  | _ => pass
  end.

Definition session_closed : Py t unit := pass.

End AudioEchoStream.

Module VideoEchoStream.

Record t := {
  _session_id : Z;
  _http : option H3Ref;
  _echo_stream_id : gmap Z Z
}.

Definition set_echo_stream_id (d : gmap Z Z) (o : t) : t :=
  {| _session_id := _session_id o; _http := _http o;
     _echo_stream_id := d |}.

Definition __init__ (session_id : Z) (http : option H3Ref) : t :=
  {| _session_id := session_id; _http := http; _echo_stream_id := ∅ |}.

Definition stream_closed (stream_id : Z) : Py t unit :=
  try_except_KeyError
    (d ← getattr _echo_stream_id;
     d' ← dict_delitem d stream_id;
     setattr (set_echo_stream_id d'))
    pass.

Definition h3_event_received `{Transport} (event : H3Event) : Py t unit :=
  match event with
  | WebTransportStreamDataReceived data stream_id stream_ended _ =>
      d ← getattr _echo_stream_id;
      (if bool_decide (stream_id ∉ dom d) then
         http ← getattr _http;
         session_id ← getattr _session_id;
         new_id ← create_webtransport_stream http session_id true;
         setattr (fun o => set_echo_stream_id
                             (<[stream_id:=new_id]> (_echo_stream_id o)) o)
       else pass) ;;
      http ← getattr _http;
      match http with
      | None => raise (AttributeError "NoneType" "_quic")
      | Some _ =>
          d ← getattr _echo_stream_id;
          let (echo_id, d') := defaultdict_getitem d stream_id in
          setattr (set_echo_stream_id d') ;;
          send_stream_data http echo_id data stream_ended ;;
          if stream_ended then stream_closed stream_id else pass
      end
  | _ => pass
  end.

Definition session_closed : Py t unit := pass.

End VideoEchoStream.

(** The protocol object a datagram handler keeps in [_protocol]: always the
    [WebTransportProtocol] that created it. *)
Inductive ProtocolRef := this_protocol.

Definition transmit {S} (protocol : ProtocolRef) : Py S unit :=
  call Protocol_transmit.

Module AudioEchoDatagram.

Record t := {
  _session_id : Z;
  _http : option H3Ref;
  _protocol : ProtocolRef
}.

Definition __init__ (session_id : Z) (http : option H3Ref)
    (protocol : ProtocolRef) : t :=
  {| _session_id := session_id; _http := http; _protocol := protocol |}.

Definition h3_event_received (event : H3Event) : Py t unit :=
  match event with
  | DatagramReceived data _ =>
      http ← getattr _http;
      session_id ← getattr _session_id;
      send_datagram http session_id data ;;
      protocol ← getattr _protocol;
      transmit protocol
  | _ => pass
  end.

(** The class never assigns [_echo_stream_id]: reading it raises
    [AttributeError], which [except KeyError] does not catch. *)
Definition stream_closed (stream_id : Z) : Py t unit :=
  try_except_KeyError
    (d ← raise (AttributeError "AudioEchoDatagram" "_echo_stream_id");
     _ ← dict_delitem d stream_id;
     pass)
    pass.

Definition session_closed : Py t unit := pass.

End AudioEchoDatagram.

Module VideoEchoDatagram.

Record t := {
  _session_id : Z;
  _http : option H3Ref;
  _protocol : ProtocolRef
}.

Definition __init__ (session_id : Z) (http : option H3Ref)
    (protocol : ProtocolRef) : t :=
  {| _session_id := session_id; _http := http; _protocol := protocol |}.

Definition h3_event_received (event : H3Event) : Py t unit :=
  match event with
  | DatagramReceived data _ =>
      http ← getattr _http;
      session_id ← getattr _session_id;
      send_datagram http session_id data ;;
      protocol ← getattr _protocol;
      transmit protocol
  | _ => pass
  end.

(** As in [AudioEchoDatagram]. *)
Definition stream_closed (stream_id : Z) : Py t unit :=
  try_except_KeyError
    (d ← raise (AttributeError "VideoEchoDatagram" "_echo_stream_id");
     _ ← dict_delitem d stream_id;
     pass)
    pass.

Definition session_closed : Py t unit := pass.

End VideoEchoDatagram.

(** ** The connection's protocol object *)

(** The value of [WebTransportProtocol._handler] when it is not [None]: an
    instance of one of the four classes. *)
Inductive Handler :=
| audio_echo_stream (o : AudioEchoStream.t)
| video_echo_stream (o : VideoEchoStream.t)
| audio_echo_datagram (o : AudioEchoDatagram.t)
| video_echo_datagram (o : VideoEchoDatagram.t).

(** A method of class [S] run on the handler [inj o]. *)
Definition bound {S A} (inj : S -> Handler) (m : Py S A) (o : S)
    : list Call -> Run Handler A :=
  fun tr => let r := m o tr in MkRun (outcome r) (inj (self r)) (trace r).

(** Method lookup by the class of the receiver. *)
Definition handler_h3_event_received `{Transport} (event : H3Event)
    : Py Handler unit :=
  fun h =>
    match h with
    | audio_echo_stream o =>
        bound audio_echo_stream (AudioEchoStream.h3_event_received event) o
    | video_echo_stream o =>
        bound video_echo_stream (VideoEchoStream.h3_event_received event) o
    | audio_echo_datagram o =>
        bound audio_echo_datagram (AudioEchoDatagram.h3_event_received event) o
    | video_echo_datagram o =>
        bound video_echo_datagram (VideoEchoDatagram.h3_event_received event) o
    end.

Definition handler_stream_closed (stream_id : Z) : Py Handler unit :=
  fun h =>
    match h with
    | audio_echo_stream o =>
        bound audio_echo_stream (AudioEchoStream.stream_closed stream_id) o
    | video_echo_stream o =>
        bound video_echo_stream (VideoEchoStream.stream_closed stream_id) o
    | audio_echo_datagram o =>
        bound audio_echo_datagram (AudioEchoDatagram.stream_closed stream_id) o
    | video_echo_datagram o =>
        bound video_echo_datagram (VideoEchoDatagram.stream_closed stream_id) o
    end.

Definition handler_session_closed : Py Handler unit :=
  fun h =>
    match h with
    | audio_echo_stream o =>
        bound audio_echo_stream AudioEchoStream.session_closed o
    | video_echo_stream o =>
        bound video_echo_stream VideoEchoStream.session_closed o
    | audio_echo_datagram o =>
        bound audio_echo_datagram AudioEchoDatagram.session_closed o
    | video_echo_datagram o =>
        bound video_echo_datagram VideoEchoDatagram.session_closed o
    end.

Module WebTransportProtocol.

Record t := {
  _http : option H3Ref;
  _handler : option Handler
}.

Definition set_http (http : option H3Ref) (p : t) : t :=
  {| _http := http; _handler := _handler p |}.

Definition set_handler (handler : option Handler) (p : t) : t :=
  {| _http := _http p; _handler := handler |}.

Definition __init__ : t := {| _http := None; _handler := None |}.

(** [self._handler.method(...)]: the call is recorded, then the method
    runs on the handler object; on [None] the attribute access fails.
    (None of the handler classes defines [__bool__] or [__len__], so
    [if self._handler:] tests for [None].) *)
Definition on_handler {A} (method : string) (mark : Call)
    (m : Py Handler A) : Py t A :=
  fun p tr =>
    match _handler p with
    | None => MkRun (Raise (AttributeError "NoneType" method)) p tr
    | Some h =>
        let r := m h (tr ++ [mark]) in
        MkRun (outcome r) (set_handler (Some (self r)) p) (trace r)
    end.

(** [H3ConnectionWithDatagram(self._quic, enable_webtransport=True)]: the
    new object is named by the number of objects created before it. *)
Definition is_new_h3 (c : Call) : bool :=
  match c with New_H3ConnectionWithDatagram _ => true | _ => false end.

Definition new_H3ConnectionWithDatagram : Py t H3Ref :=
  tr ← history;
  call (New_H3ConnectionWithDatagram true) ;;
  mret (length (List.filter is_new_h3 tr)).

Definition _send_response (stream_id : Z) (status_code : Z)
    (end_stream : bool) : Py t unit :=
  let headers := [(":status", str status_code)] in
  let headers := headers ++ [("sec-webtransport-http3-draft", "draft02")] in
  http ← getattr _http;
  send_headers http stream_id headers end_stream.

(** [assert(self._handler is None)] *)
Definition assert_handler_is_None : Py t unit :=
  handler ← getattr _handler;
  match handler with
  | None => pass
  | Some _ => raise AssertionError
  end.

Definition _handshake_webtransport (stream_id : Z)
    (request_headers : gmap string string) : Py t unit :=
  let authority := request_headers !! ":authority" in
  let path := request_headers !! ":path" in
  if bool_decide (authority = None) || bool_decide (path = None) then
    _send_response stream_id 400 true
  else if bool_decide (path = Some "/audio/echo/stream") then
    assert_handler_is_None ;;
    http ← getattr _http;
    setattr (set_handler
               (Some (audio_echo_stream
                        (AudioEchoStream.__init__ stream_id http)))) ;;
    _send_response stream_id 200 false
  else if bool_decide (path = Some "/video/echo/stream") then
    assert_handler_is_None ;;
    http ← getattr _http;
    setattr (set_handler
               (Some (video_echo_stream
                        (VideoEchoStream.__init__ stream_id http)))) ;;
    _send_response stream_id 200 false
  else if bool_decide (path = Some "/audio/echo/datagram") then
    assert_handler_is_None ;;
    http ← getattr _http;
    setattr (set_handler
               (Some (audio_echo_datagram
                        (AudioEchoDatagram.__init__ stream_id http
                           this_protocol)))) ;;
    _send_response stream_id 200 false
  else if bool_decide (path = Some "/video/echo/datagram") then
    assert_handler_is_None ;;
    http ← getattr _http;
    setattr (set_handler
               (Some (video_echo_datagram
                        (VideoEchoDatagram.__init__ stream_id http
                           this_protocol)))) ;;
    _send_response stream_id 200 false
  else
    _send_response stream_id 404 true.

(** The test of line 206: [hasattr(event, 'data')] holds of every
    [DataReceived]; [and] evaluates [data[0]] and [data[1]] only once
    [len(data) >= 3] is known. *)
Definition is_close_session (data : bytes) (stream_ended : bool) : bool :=
  bool_decide (len data >= 3) && stream_ended &&
  bool_decide (byte_at data 0 = Some 0x68) &&
  bool_decide (byte_at data 1 = Some 0x43).

Definition _h3_event_received `{Transport} (event : H3Event) : Py t unit :=
  match event with
  | HeadersReceived event_headers stream_id _ =>
      let headers := headers_dict event_headers in
      if bool_decide (headers !! ":method" = Some "CONNECT") &&
         bool_decide (headers !! ":protocol" = Some "webtransport")
      then _handshake_webtransport stream_id headers
      else _send_response stream_id 400 true
  | DataReceived data _ stream_ended =>
      if is_close_session data stream_ended then
        call (Builtin_print "session closed!!!!!!") ;;
        on_handler "session_closed" Handler_session_closed
          handler_session_closed
      else pass
  | _ => pass
  end ;;
  handler ← getattr _handler;
  match handler with
  | Some _ =>
      on_handler "h3_event_received" (Handler_h3_event_received event)
        (handler_h3_event_received event)
  | None => pass
  end.

Definition quic_event_received `{Transport} (event : QuicEvent)
    : Py t unit :=
  match event with
  | ProtocolNegotiated _ =>
      http ← new_H3ConnectionWithDatagram;
      setattr (set_http (Some http))
  | StreamReset _ stream_id =>
      handler ← getattr _handler;
      match handler with
      | Some _ =>
          on_handler "stream_closed" (Handler_stream_closed stream_id)
            (handler_stream_closed stream_id)
      | None => pass
      end
  | _ => pass
  end ;;
  http ← getattr _http;
  match http with
  | Some c =>
      h3_events ← handle_event c event;
      for_each h3_events _h3_event_received
  | None => pass
  end.

End WebTransportProtocol.

(** ** A transport for the examples

    It hands out the stream ids 3, 7, 11, ... and its HTTP/3 layer decodes
    no event. *)

Definition is_create_stream (c : Call) : bool :=
  match c with Http_create_webtransport_stream _ _ _ => true | _ => false end.

Definition example_transport : Transport := {|
  created_stream_id tr :=
    4 * Z.of_nat (length (List.filter is_create_stream tr)) - 1;
  decoded_h3_events tr := []
|}.

(** The byte string [b"\x68\x43\x00"]. *)
Definition close_capsule : bytes :=
  String "h" (String "C" (String "000" EmptyString)).

(** The byte strings [b"\x01\x02"] and [b"\x03"]. *)
Definition bytes_1_2 : bytes := String "001" (String "002" EmptyString).
Definition bytes_3 : bytes := String "003" EmptyString.

(** * Vocabulary of the statements *)

Import WebTransportProtocol.

(** The chunks of one inbound stream: bytes and end-of-stream flag. *)
Definition chunk_events (stream_id session_id : Z)
    (cs : list (bytes * bool)) : list H3Event :=
  map (fun ch => WebTransportStreamDataReceived ch.1 stream_id ch.2 session_id)
    cs.

(** No chunk but the last one carries the end-of-stream flag. *)
Fixpoint ends_at_last (cs : list (bytes * bool)) : bool :=
  match cs with
  | [] => true
  | ch :: rest =>
      match rest with
      | [] => true
      | _ => negb ch.2 && ends_at_last rest
      end
  end.

Definition last_ended (cs : list (bytes * bool)) : bool :=
  match last cs with
  | Some ch => ch.2
  | None => false
  end.

(** The writes that echo the chunks on the outbound stream [out]. *)
Definition echoed (out : Z) (cs : list (bytes * bool)) : list Call :=
  map (fun ch => Quic_send_stream_data out ch.1 ch.2) cs.

(** The record of the call another event makes on the handler, if there is
    a handler. *)
Definition forwarded (handler : option Handler) (event : H3Event)
    : list Call :=
  match handler with
  | Some _ => [Handler_h3_event_received event]
  | None => []
  end.

(** Lines 211-212: [if self._handler: self._handler.h3_event_received(event)] *)
Definition forward `{Transport} (event : H3Event) : Py t unit :=
  handler ← getattr _handler;
  match handler with
  | Some _ =>
      on_handler "h3_event_received" (Handler_h3_event_received event)
        (handler_h3_event_received event)
  | None => pass
  end.

(** The events no handler class acts on. *)
Definition ignored_by_handlers (event : H3Event) : bool :=
  match event with
  | WebTransportStreamDataReceived _ _ _ _ | DatagramReceived _ _ => false
  | _ => true
  end.

(** The routing table of the specification: path and the handler created
    for it, given the stream id of the request and the HTTP/3 layer. *)
Definition routing_table : list (bytes * (Z -> option H3Ref -> Handler)) :=
  [("/audio/echo/stream",
    fun session_id http =>
      audio_echo_stream (AudioEchoStream.__init__ session_id http));
   ("/video/echo/stream",
    fun session_id http =>
      video_echo_stream (VideoEchoStream.__init__ session_id http));
   ("/audio/echo/datagram",
    fun session_id http =>
      audio_echo_datagram
        (AudioEchoDatagram.__init__ session_id http this_protocol));
   ("/video/echo/datagram",
    fun session_id http =>
      video_echo_datagram
        (VideoEchoDatagram.__init__ session_id http this_protocol))].

Definition draft_marker : bytes * bytes :=
  ("sec-webtransport-http3-draft", "draft02").

(** A [send_headers] call carries the draft marker. *)
Definition carries_draft_marker (call : Call) : Prop :=
  match call with
  | Http_send_headers _ _ headers _ => draft_marker ∈ headers
  | _ => True
  end.

(** A CONNECT request for [path]. *)
Definition connect_headers (path : bytes) : list (bytes * bytes) :=
  [(":method", "CONNECT"); (":protocol", "webtransport");
   (":authority", "localhost:4433"); (":path", path)].

Definition connect_request (path : bytes) : H3Event :=
  HeadersReceived (connect_headers path) 0 false.

(** A plain HTTP/3 request. *)
Definition get_request : H3Event :=
  HeadersReceived
    [(":method", "GET"); (":scheme", "https");
     (":authority", "localhost:4433"); (":path", "/")] 0 true.

(** Connections on which a handshake has been made on stream 0. *)
Definition video_stream_session : t :=
  {| _http := Some 0%nat;
     _handler :=
       Some (video_echo_stream (VideoEchoStream.__init__ 0 (Some 0%nat))) |}.

Definition audio_datagram_session : t :=
  {| _http := Some 0%nat;
     _handler :=
       Some (audio_echo_datagram
               (AudioEchoDatagram.__init__ 0 (Some 0%nat) this_protocol)) |}.

(** An HTTP/3 layer for the examples that reads the bytes of a QUIC stream
    as the path of a CONNECT request. *)
Definition request_transport : Transport := {|
  created_stream_id tr :=
    4 * Z.of_nat (length (List.filter is_create_stream tr)) - 1;
  decoded_h3_events tr :=
    match last tr with
    | Some (Http_handle_event _ (StreamDataReceived path _ _)) =>
        [connect_request path]
    | _ => []
    end
|}.

(** ** The HTTP/3 connection subclass (lines 42-62) *)

Definition H3_DATAGRAM_05 : Z := 0xffd277.
Definition ENABLE_CONNECT_PROTOCOL : Z := 0x08.

Module H3ConnectionWithDatagram.

(** [settings[Setting.H3_DATAGRAM] = 1] on the caller's dict, then the
    method of [H3Connection] on that dict.  The constant
    [Setting.H3_DATAGRAM] and the inherited method are aioquic's. *)
Definition _validate_settings {R} (Setting_H3_DATAGRAM : Z)
  (super_validate_settings : gmap Z Z -> R) (settings : gmap Z Z) : R :=
  let settings := <[Setting_H3_DATAGRAM:=1]> settings in
  super_validate_settings settings.

(** The dict returned by [H3Connection._get_local_settings], with the two
    entries added. *)
Definition _get_local_settings (super_get_local_settings : gmap Z Z)
  : gmap Z Z :=
  let settings := super_get_local_settings in
  let settings := <[H3_DATAGRAM_05:=1]> settings in
  let settings := <[ENABLE_CONNECT_PROTOCOL:=1]> settings in
  settings.

End H3ConnectionWithDatagram.

(** * Vocabulary of the further statements *)

(** The calls by which a handler echoes. *)
Definition is_echo_call (c : Call) : bool :=
  match c with
  | Http_create_webtransport_stream _ _ _ | Quic_send_stream_data _ _ _
  | Http_send_datagram _ _ _ | Protocol_transmit => true
  | _ => false
  end.

(** The responses among some calls: header list and end-of-stream flag. *)
Definition response_of (c : Call) : option (list (bytes * bytes) * bool) :=
  match c with
  | Http_send_headers _ _ headers end_stream => Some (headers, end_stream)
  | _ => None
  end.

Definition responses (calls : list Call)
  : list (list (bytes * bytes) * bool) :=
  omap response_of calls.

Definition response_200 : list (bytes * bytes) * bool :=
  ([(":status", "200"); draft_marker], false).
Definition response_400 : list (bytes * bytes) * bool :=
  ([(":status", "400"); draft_marker], true).
Definition response_404 : list (bytes * bytes) * bool :=
  ([(":status", "404"); draft_marker], true).

(** The writes among some calls: payload and end-of-stream flag. *)
Definition write_of (c : Call) : option (bytes * bool) :=
  match c with
  | Quic_send_stream_data _ data end_stream => Some (data, end_stream)
  | _ => None
  end.

Definition writes (calls : list Call) : list (bytes * bool) :=
  omap write_of calls.

(** Stream data events: payload, stream id, end-of-stream flag, session. *)
Definition stream_data_event (e : bytes * Z * bool * Z) : H3Event :=
  WebTransportStreamDataReceived e.1.1.1 e.1.1.2 e.1.2 e.2.

(** Datagram events (payload and flow id) and their echoes. *)
Definition datagram_event (e : bytes * Z) : H3Event :=
  DatagramReceived e.1 e.2.

Definition datagram_echoes (c : H3Ref) (session_id : Z)
  (es : list (bytes * Z)) : list Call :=
  flat_map (fun e => [Http_send_datagram c session_id e.1; Protocol_transmit])
    es.

(** What a handler is: its class, its session id and its HTTP/3 layer. *)
Definition handler_identity (h : Handler) : string * Z * option H3Ref :=
  match h with
  | audio_echo_stream o =>
      ("AudioEchoStream", AudioEchoStream._session_id o,
       AudioEchoStream._http o)
  | video_echo_stream o =>
      ("VideoEchoStream", VideoEchoStream._session_id o,
       VideoEchoStream._http o)
  | audio_echo_datagram o =>
      ("AudioEchoDatagram", AudioEchoDatagram._session_id o,
       AudioEchoDatagram._http o)
  | video_echo_datagram o =>
      ("VideoEchoDatagram", VideoEchoDatagram._session_id o,
       VideoEchoDatagram._http o)
  end.

(** The handler, if any, has an HTTP/3 layer and so has the connection. *)
Definition wired (p : t) : Prop :=
  match _handler p with
  | Some h => is_Some (_http p) /\ is_Some (handler_identity h).2
  | None => True
  end.

(** The states a connection goes through: created by [__init__], then one
    [quic_event_received] per QUIC event, whether it returns or raises. *)
Inductive reachable `{Transport} : t -> list Call -> Prop :=
| reachable_init : reachable __init__ []
| reachable_event (event : QuicEvent) (p : t) (tr : list Call) :
    reachable p tr ->
    reachable (self (quic_event_received event p tr))
      (trace (quic_event_received event p tr)).

(** An HTTP/3 layer for the examples that decodes every QUIC stream chunk
    into a close message followed by a chunk of session data. *)
Definition batch_transport : Transport := {|
  created_stream_id tr :=
    4 * Z.of_nat (length (List.filter is_create_stream tr)) - 1;
  decoded_h3_events tr :=
    match last tr with
    | Some (Http_handle_event _ (StreamDataReceived data _ stream_id)) =>
        [DataReceived close_capsule stream_id true;
         WebTransportStreamDataReceived data stream_id false 0]
    | _ => []
    end
|}.

(** Lines 195-209 of [_h3_event_received]: what is done with the event
    before it is passed to the handler. *)
Definition dispatch `{Transport} (event : H3Event) : Py t unit :=
  match event with
  | HeadersReceived event_headers stream_id _ =>
      let headers := headers_dict event_headers in
      if bool_decide (headers !! ":method" = Some "CONNECT") &&
         bool_decide (headers !! ":protocol" = Some "webtransport")
      then _handshake_webtransport stream_id headers
      else _send_response stream_id 400 true
  | DataReceived data _ stream_ended =>
      if is_close_session data stream_ended then
        call (Builtin_print "session closed!!!!!!") ;;
        on_handler "session_closed" Handler_session_closed
          handler_session_closed
      else pass
  | _ => pass
  end.

Definition is_headers_event (event : H3Event) : bool :=
  match event with
  | HeadersReceived _ _ _ => true
  | _ => false
  end.

(** The responses the server has: at most one per event. *)
Definition allowed_responses : list (list (list (bytes * bytes) * bool)) :=
  [[]; [response_200]; [response_400]; [response_404]].

(** Lines 180-187 and lines 189-191 of [quic_event_received]. *)
Definition on_quic_event (event : QuicEvent) : Py t unit :=
  match event with
  | ProtocolNegotiated _ =>
      http ← new_H3ConnectionWithDatagram;
      setattr (set_http (Some http))
  | StreamReset _ stream_id =>
      handler ← getattr _handler;
      match handler with
      | Some _ =>
          on_handler "stream_closed" (Handler_stream_closed stream_id)
            (handler_stream_closed stream_id)
      | None => pass
      end
  | _ => pass
  end.

Definition pass_to_h3 `{Transport} (event : QuicEvent) : Py t unit :=
  http ← getattr _http;
  match http with
  | Some c =>
      h3_events ← handle_event c event;
      for_each h3_events _h3_event_received
  | None => pass
  end.

(** * Properties *)

Create HintDb py discriminated.

#[global] Hint Unfold pass raise getattr setattr call history
  try_except_KeyError dict_delitem create_webtransport_stream
  send_stream_data send_datagram send_headers handle_event transmit bound
  : py.

(** Runs the monadic code of the goal as far as the data allows. *)
Ltac py_run :=
  repeat (autounfold with py; unfold mbind, mret, Py_bind, Py_ret; cbn).

(** ** Stream clean-up *)

Lemma AudioEchoStream_stream_closed_run (stream_id : Z)
    (o : AudioEchoStream.t) (tr : list Call) :
  AudioEchoStream.stream_closed stream_id o tr =
  MkRun (Return tt)
    (AudioEchoStream.set_echo_stream_id
       (delete stream_id (AudioEchoStream._echo_stream_id o)) o) tr.
Proof.
  destruct o as [sess http d].
  unfold AudioEchoStream.stream_closed, AudioEchoStream.set_echo_stream_id.
  py_run. destruct (d !! stream_id) eqn:E; cbn; [done |].
  by rewrite delete_id.
Qed.

Lemma VideoEchoStream_stream_closed_run (stream_id : Z)
    (o : VideoEchoStream.t) (tr : list Call) :
  VideoEchoStream.stream_closed stream_id o tr =
  MkRun (Return tt)
    (VideoEchoStream.set_echo_stream_id
       (delete stream_id (VideoEchoStream._echo_stream_id o)) o) tr.
Proof.
  destruct o as [sess http d].
  unfold VideoEchoStream.stream_closed, VideoEchoStream.set_echo_stream_id.
  py_run. destruct (d !! stream_id) eqn:E; cbn; [done |].
  by rewrite delete_id.
Qed.

(** C9. On a stream echo handler (audio or video), [stream_closed] never
    raises and makes no call; running it a second time for the same stream
    id leaves the handler as the first run left it; and for a stream id
    that has no mapping it leaves the handler as it was. *)
Theorem stream_closed_idempotent (stream_id : Z) (tr tr' : list Call) :
  (forall o : AudioEchoStream.t,
     let once := AudioEchoStream.stream_closed stream_id o tr in
     let twice := AudioEchoStream.stream_closed stream_id (self once) tr' in
     outcome once = Return tt /\ trace once = tr /\
     outcome twice = Return tt /\ trace twice = tr' /\
     self twice = self once /\
     AudioEchoStream._echo_stream_id (self once) !! stream_id = None /\
     (AudioEchoStream._echo_stream_id o !! stream_id = None ->
      self once = o)) /\
  (forall o : VideoEchoStream.t,
     let once := VideoEchoStream.stream_closed stream_id o tr in
     let twice := VideoEchoStream.stream_closed stream_id (self once) tr' in
     outcome once = Return tt /\ trace once = tr /\
     outcome twice = Return tt /\ trace twice = tr' /\
     self twice = self once /\
     VideoEchoStream._echo_stream_id (self once) !! stream_id = None /\
     (VideoEchoStream._echo_stream_id o !! stream_id = None ->
      self once = o)).
Proof.
  split; intros [sess http d]; cbv zeta.
  - rewrite !AudioEchoStream_stream_closed_run; cbn.
    rewrite delete_delete_eq, lookup_delete_eq. repeat split.
    intros E. unfold AudioEchoStream.set_echo_stream_id; cbn.
    by rewrite delete_id.
  - rewrite !VideoEchoStream_stream_closed_run; cbn.
    rewrite delete_delete_eq, lookup_delete_eq. repeat split.
    intros E. unfold VideoEchoStream.set_echo_stream_id; cbn.
    by rewrite delete_id.
Qed.

Lemma stream_closed_idempotent_witness :
  let o := AudioEchoStream.__init__ 0 (Some 0%nat) in
  self (AudioEchoStream.stream_closed 4 o []) = o /\
  let v := VideoEchoStream.__init__ 0 (Some 0%nat) in
  self (VideoEchoStream.stream_closed 4 v []) = v.
Proof.
  split.
  - apply (proj1 (stream_closed_idempotent 4 [] [])). reflexivity.
  - apply (proj2 (stream_closed_idempotent 4 [] [])). reflexivity.
Defined.

(** ** Datagram echo *)

(** C6. A datagram echo handler (audio or video) answers a
    [DatagramReceived] event with exactly two calls, in this order:
    [send_datagram] of the received payload on the handler's own session
    id, then [transmit]; it does not raise and the handler object is left
    as it was. *)
Theorem datagram_echoed_once (c : H3Ref) (session_id : Z) (data : bytes)
    (flow_id : Z) (tr : list Call) :
  (let o := AudioEchoDatagram.__init__ session_id (Some c) this_protocol in
   AudioEchoDatagram.h3_event_received (DatagramReceived data flow_id) o tr =
   MkRun (Return tt) o
     (tr ++ [Http_send_datagram c session_id data; Protocol_transmit])) /\
  (let o := VideoEchoDatagram.__init__ session_id (Some c) this_protocol in
   VideoEchoDatagram.h3_event_received (DatagramReceived data flow_id) o tr =
   MkRun (Return tt) o
     (tr ++ [Http_send_datagram c session_id data; Protocol_transmit])).
Proof.
  split; py_run; by rewrite <- app_assoc.
Qed.

(** ** Events of the other mode *)

(** C10. A stream echo handler given a [DatagramReceived] event, and a
    datagram echo handler given a [WebTransportStreamDataReceived] event,
    return normally, make no call and leave the handler object as it
    was. *)
Theorem cross_mode_events_dropped `{Transport} (tr : list Call) :
  (forall (o : AudioEchoStream.t) data flow_id,
     AudioEchoStream.h3_event_received (DatagramReceived data flow_id) o tr =
     MkRun (Return tt) o tr) /\
  (forall (o : VideoEchoStream.t) data flow_id,
     VideoEchoStream.h3_event_received (DatagramReceived data flow_id) o tr =
     MkRun (Return tt) o tr) /\
  (forall (o : AudioEchoDatagram.t) data stream_id stream_ended session_id,
     AudioEchoDatagram.h3_event_received
       (WebTransportStreamDataReceived data stream_id stream_ended session_id)
       o tr =
     MkRun (Return tt) o tr) /\
  (forall (o : VideoEchoDatagram.t) data stream_id stream_ended session_id,
     VideoEchoDatagram.h3_event_received
       (WebTransportStreamDataReceived data stream_id stream_ended session_id)
       o tr =
     MkRun (Return tt) o tr).
Proof. repeat split. Qed.

(** ** Stream echo *)

(** The two classes have the same method bodies; so have the proofs. *)
#[global] Hint Unfold AudioEchoStream.h3_event_received
  VideoEchoStream.h3_event_received AudioEchoStream.set_echo_stream_id
  VideoEchoStream.set_echo_stream_id : py.

Ltac first_chunk stream_closed_run :=
  intros E create out;
  py_run; rewrite bool_decide_true by (by apply not_elem_of_dom);
  py_run; unfold defaultdict_getitem; rewrite lookup_insert_eq;
  py_run; rewrite <- app_assoc; cbn;
  match goal with |- context [if ?ended then _ else _] => destruct ended end;
  [| done];
  rewrite stream_closed_run; py_run;
  by rewrite delete_insert_eq, delete_id.

Ltac next_chunk stream_closed_run :=
  intros E;
  py_run; rewrite bool_decide_false;
  [| intros N; apply not_elem_of_dom in N; congruence];
  py_run; unfold defaultdict_getitem; rewrite E;
  py_run;
  match goal with |- context [if ?ended then _ else _] => destruct ended end;
  [| done];
  by rewrite stream_closed_run.

(** One chunk on a stream id that has no mapping yet. *)
Lemma AudioEchoStream_first_chunk `{Transport} (c : H3Ref)
    (session_id stream_id : Z) (d : gmap Z Z) (data : bytes) (ended : bool)
    (event_session : Z) (tr : list Call) :
  d !! stream_id = None ->
  let create := Http_create_webtransport_stream c session_id true in
  let out := created_stream_id (tr ++ [create]) in
  AudioEchoStream.h3_event_received
    (WebTransportStreamDataReceived data stream_id ended event_session)
    {| AudioEchoStream._session_id := session_id;
       AudioEchoStream._http := Some c;
       AudioEchoStream._echo_stream_id := d |} tr =
  MkRun (Return tt)
    {| AudioEchoStream._session_id := session_id;
       AudioEchoStream._http := Some c;
       AudioEchoStream._echo_stream_id :=
         if ended then d else <[stream_id:=out]> d |}
    (tr ++ [create; Quic_send_stream_data out data ended]).
Proof.
  first_chunk AudioEchoStream_stream_closed_run.
Qed.

(** One chunk on a stream id that is mapped to [out]. *)
Lemma AudioEchoStream_next_chunk `{Transport} (c : H3Ref)
    (session_id stream_id out : Z) (d : gmap Z Z) (data : bytes)
    (ended : bool) (event_session : Z) (tr : list Call) :
  d !! stream_id = Some out ->
  AudioEchoStream.h3_event_received
    (WebTransportStreamDataReceived data stream_id ended event_session)
    {| AudioEchoStream._session_id := session_id;
       AudioEchoStream._http := Some c;
       AudioEchoStream._echo_stream_id := d |} tr =
  MkRun (Return tt)
    {| AudioEchoStream._session_id := session_id;
       AudioEchoStream._http := Some c;
       AudioEchoStream._echo_stream_id :=
         if ended then delete stream_id d else d |}
    (tr ++ [Quic_send_stream_data out data ended]).
Proof.
  next_chunk AudioEchoStream_stream_closed_run.
Qed.

Lemma VideoEchoStream_first_chunk `{Transport} (c : H3Ref)
    (session_id stream_id : Z) (d : gmap Z Z) (data : bytes) (ended : bool)
    (event_session : Z) (tr : list Call) :
  d !! stream_id = None ->
  let create := Http_create_webtransport_stream c session_id true in
  let out := created_stream_id (tr ++ [create]) in
  VideoEchoStream.h3_event_received
    (WebTransportStreamDataReceived data stream_id ended event_session)
    {| VideoEchoStream._session_id := session_id;
       VideoEchoStream._http := Some c;
       VideoEchoStream._echo_stream_id := d |} tr =
  MkRun (Return tt)
    {| VideoEchoStream._session_id := session_id;
       VideoEchoStream._http := Some c;
       VideoEchoStream._echo_stream_id :=
         if ended then d else <[stream_id:=out]> d |}
    (tr ++ [create; Quic_send_stream_data out data ended]).
Proof.
  first_chunk VideoEchoStream_stream_closed_run.
Qed.

Lemma VideoEchoStream_next_chunk `{Transport} (c : H3Ref)
    (session_id stream_id out : Z) (d : gmap Z Z) (data : bytes)
    (ended : bool) (event_session : Z) (tr : list Call) :
  d !! stream_id = Some out ->
  VideoEchoStream.h3_event_received
    (WebTransportStreamDataReceived data stream_id ended event_session)
    {| VideoEchoStream._session_id := session_id;
       VideoEchoStream._http := Some c;
       VideoEchoStream._echo_stream_id := d |} tr =
  MkRun (Return tt)
    {| VideoEchoStream._session_id := session_id;
       VideoEchoStream._http := Some c;
       VideoEchoStream._echo_stream_id :=
         if ended then delete stream_id d else d |}
    (tr ++ [Quic_send_stream_data out data ended]).
Proof.
  next_chunk VideoEchoStream_stream_closed_run.
Qed.

Section rest_of_stream.

Context {S : Type} (h3_event_received : H3Event -> Py S unit).
Context (object : gmap Z Z -> S).
Context (stream_id session_id out : Z).

Hypothesis next_chunk : forall d data ended tr,
  d !! stream_id = Some out ->
  h3_event_received
    (WebTransportStreamDataReceived data stream_id ended session_id)
    (object d) tr =
  MkRun (Return tt) (object (if ended then delete stream_id d else d))
    (tr ++ [Quic_send_stream_data out data ended]).

(** Once the mapping exists, the chunks are written to [out] one by one
    and the mapping goes with the chunk that ends the stream. *)
Lemma mapped_chunks_echoed (cs : list (bytes * bool)) :
  forall d tr,
    d !! stream_id = Some out ->
    ends_at_last cs = true ->
    for_each (chunk_events stream_id session_id cs) h3_event_received
      (object d) tr =
    MkRun (Return tt)
      (object (if last_ended cs then delete stream_id d else d))
      (tr ++ echoed out cs).
Proof.
  induction cs as [| [data ended] rest IH]; intros d tr E W.
  - cbn. by rewrite app_nil_r.
  - cbn [chunk_events map for_each fst snd].
    py_run. rewrite next_chunk by done.
    destruct rest as [| ch rest'].
    + cbn. done.
    + cbn in W. apply andb_prop in W as [N W].
      apply negb_true_iff in N. cbn in N. subst ended.
      fold (chunk_events stream_id session_id (ch :: rest')).
      rewrite IH by done. unfold last_ended.
      rewrite last_cons_cons. cbn [echoed map fst snd].
      by rewrite <- app_assoc.
Qed.

End rest_of_stream.

(** C5. Take a stream echo handler (audio or video) whose transport is
    present and in which [stream_id] has no mapping, and deliver to it the
    chunks [cs] of the inbound stream [stream_id], [cs] not empty and none
    but its last chunk carrying the end-of-stream flag.  Then the handler
    returns normally from every chunk; it makes one
    [create_webtransport_stream] call (unidirectional, on its own session
    id), before anything is written; it then writes every chunk, bytes and
    end-of-stream flag unchanged and in the order received, to the stream
    that call returned; and afterwards [stream_id] is unmapped if the last
    chunk ended the stream and mapped to the outbound stream if not. *)
Theorem stream_chunks_echoed `{Transport} (c : H3Ref)
    (session_id stream_id event_session : Z) (d : gmap Z Z)
    (cs : list (bytes * bool)) (tr : list Call) :
  cs <> [] ->
  ends_at_last cs = true ->
  d !! stream_id = None ->
  let create := Http_create_webtransport_stream c session_id true in
  let out := created_stream_id (tr ++ [create]) in
  let d' := if last_ended cs then d else <[stream_id:=out]> d in
  for_each (chunk_events stream_id event_session cs)
    AudioEchoStream.h3_event_received
    {| AudioEchoStream._session_id := session_id;
       AudioEchoStream._http := Some c;
       AudioEchoStream._echo_stream_id := d |} tr =
  MkRun (Return tt)
    {| AudioEchoStream._session_id := session_id;
       AudioEchoStream._http := Some c;
       AudioEchoStream._echo_stream_id := d' |}
    (tr ++ create :: echoed out cs) /\
  for_each (chunk_events stream_id event_session cs)
    VideoEchoStream.h3_event_received
    {| VideoEchoStream._session_id := session_id;
       VideoEchoStream._http := Some c;
       VideoEchoStream._echo_stream_id := d |} tr =
  MkRun (Return tt)
    {| VideoEchoStream._session_id := session_id;
       VideoEchoStream._http := Some c;
       VideoEchoStream._echo_stream_id := d' |}
    (tr ++ create :: echoed out cs).
Proof.
  intros N W E create out d'.
  destruct cs as [| [data ended] rest]; [done |]. clear N.
  assert (rest = [] \/ (ended = false /\ ends_at_last rest = true)) as R.
  { destruct rest; [by left | right]. cbn in W.
    apply andb_prop in W as [N W]. by apply negb_true_iff in N. }
  cbn [chunk_events map for_each fst snd].
  fold (chunk_events stream_id event_session rest).
  split.
  - unfold mbind, Py_bind. rewrite AudioEchoStream_first_chunk by done.
    fold create out. destruct R as [-> | [-> R]]; [done |].
    rewrite (mapped_chunks_echoed AudioEchoStream.h3_event_received
               (AudioEchoStream.Build_t session_id (Some c))
               stream_id event_session out).
    + assert (last_ended ((data, false) :: rest) = last_ended rest) as L.
      { unfold last_ended. destruct rest; [| by rewrite last_cons_cons].
        done. }
      subst d'. rewrite L, delete_insert_eq, delete_id by done.
      cbn [echoed map fst snd]. by rewrite <- app_assoc.
    + intros. by apply AudioEchoStream_next_chunk.
    + apply lookup_insert_eq.
    + done.
  - unfold mbind, Py_bind. rewrite VideoEchoStream_first_chunk by done.
    fold create out. destruct R as [-> | [-> R]]; [done |].
    rewrite (mapped_chunks_echoed VideoEchoStream.h3_event_received
               (VideoEchoStream.Build_t session_id (Some c))
               stream_id event_session out).
    + assert (last_ended ((data, false) :: rest) = last_ended rest) as L.
      { unfold last_ended. destruct rest; [| by rewrite last_cons_cons].
        done. }
      subst d'. rewrite L, delete_insert_eq, delete_id by done.
      cbn [echoed map fst snd]. by rewrite <- app_assoc.
    + intros. by apply VideoEchoStream_next_chunk.
    + apply lookup_insert_eq.
    + done.
Qed.

Lemma stream_chunks_echoed_witness :
  for_each (chunk_events 2 0 [("abc", false); ("def", true)])
    (@AudioEchoStream.h3_event_received example_transport)
    (AudioEchoStream.__init__ 0 (Some 0%nat)) [] =
  MkRun (Return tt) (AudioEchoStream.__init__ 0 (Some 0%nat))
    [Http_create_webtransport_stream 0%nat 0 true;
     Quic_send_stream_data 3 "abc" false;
     Quic_send_stream_data 3 "def" true].
Proof.
  refine (proj1 (@stream_chunks_echoed example_transport 0%nat 0 2 0 ∅
                   [("abc", false); ("def", true)] [] _ _ _)).
  - discriminate.
  - reflexivity.
  - reflexivity.
Defined.

(** ** The router *)

#[global] Hint Unfold _send_response assert_handler_is_None on_handler
  set_handler set_http : py.

Lemma handler_ignores `{Transport} (event : H3Event) (h : Handler)
    (tr : list Call) :
  ignored_by_handlers event = true ->
  handler_h3_event_received event h tr = MkRun (Return tt) h tr.
Proof.
  intros I. destruct event; try discriminate; by destruct h as [[]|[]|[]|[]].
Qed.

Lemma forward_ignored `{Transport} (event : H3Event) (http : option H3Ref)
    (handler : option Handler) (tr : list Call) :
  ignored_by_handlers event = true ->
  forward event {| _http := http; _handler := handler |} tr =
  MkRun (Return tt) {| _http := http; _handler := handler |}
    (tr ++ forwarded handler event).
Proof.
  intros I. unfold forward. py_run. destruct handler as [h |]; cbn.
  - by rewrite handler_ignores.
  - by rewrite app_nil_r.
Qed.

Lemma _send_response_run (stream_id status_code : Z) (end_stream : bool)
    (c : H3Ref) (handler : option Handler) (tr : list Call) :
  _send_response stream_id status_code end_stream
    {| _http := Some c; _handler := handler |} tr =
  MkRun (Return tt) {| _http := Some c; _handler := handler |}
    (tr ++ [Http_send_headers c stream_id
              [(":status", str status_code);
               ("sec-webtransport-http3-draft", "draft02")] end_stream]).
Proof. reflexivity. Qed.

(** C8. On a connection whose HTTP/3 layer exists, a request whose headers
    do not say [:method = CONNECT] and [:protocol = webtransport], or which
    lack [:authority] or [:path], is answered by exactly one call
    [send_headers] with status 400, the draft marker and the stream ended;
    the protocol object, its handler included, is left as it was (an
    existing handler is shown the event and ignores it). *)
Theorem malformed_request_400 `{Transport} (hs : list (bytes * bytes))
    (stream_id : Z) (stream_ended : bool) (c : H3Ref)
    (handler : option Handler) (tr : list Call) :
  let headers := headers_dict hs in
  let event := HeadersReceived hs stream_id stream_ended in
  headers !! ":method" <> Some "CONNECT" \/
  headers !! ":protocol" <> Some "webtransport" \/
  headers !! ":authority" = None \/
  headers !! ":path" = None ->
  _h3_event_received event {| _http := Some c; _handler := handler |} tr =
  MkRun (Return tt) {| _http := Some c; _handler := handler |}
    (tr ++ Http_send_headers c stream_id
             [(":status", "400"); ("sec-webtransport-http3-draft", "draft02")]
             true
        :: forwarded handler event).
Proof.
  intros headers event Bad.
  change (_h3_event_received event) with
    ((if bool_decide (headers !! ":method" = Some "CONNECT") &&
         bool_decide (headers !! ":protocol" = Some "webtransport")
      then _handshake_webtransport stream_id headers
      else _send_response stream_id 400 true) ;; forward event).
  assert ((if bool_decide (headers !! ":method" = Some "CONNECT") &&
              bool_decide (headers !! ":protocol" = Some "webtransport")
           then _handshake_webtransport stream_id headers
           else _send_response stream_id 400 true) =
          _send_response stream_id 400 true) as ->.
  { destruct (bool_decide (headers !! ":method" = _)) eqn:M; [| done].
    destruct (bool_decide (headers !! ":protocol" = _)) eqn:P; [| done].
    apply bool_decide_eq_true in M, P. cbn. unfold _handshake_webtransport.
    destruct Bad as [B | [B | [B | B]]]; [done | done | |]; rewrite B.
    - done.
    - by rewrite orb_true_r. }
  unfold mbind, Py_bind. rewrite _send_response_run.
  rewrite forward_ignored by done. by rewrite <- app_assoc.
Qed.

(** ** The handshake *)

(** Splits [(path, make) ∈ routing_table] into its four cases. *)
Ltac routed R :=
  unfold routing_table in R;
  repeat (apply elem_of_cons in R as [R | R]; [injection R as -> -> |]);
  [.. | by apply elem_of_nil in R].

Lemma _handshake_webtransport_routed (stream_id : Z)
    (headers : gmap string string) (c : H3Ref) (authority path : bytes)
    (make : Z -> option H3Ref -> Handler) (tr : list Call) :
  headers !! ":authority" = Some authority ->
  headers !! ":path" = Some path ->
  (path, make) ∈ routing_table ->
  _handshake_webtransport stream_id headers
    {| _http := Some c; _handler := None |} tr =
  MkRun (Return tt)
    {| _http := Some c; _handler := Some (make stream_id (Some c)) |}
    (tr ++ [Http_send_headers c stream_id [(":status", "200"); draft_marker]
              false]).
Proof.
  intros A P R. unfold _handshake_webtransport. rewrite A, P.
  routed R; reflexivity.
Qed.

Lemma _handshake_webtransport_again (stream_id : Z)
    (headers : gmap string string) (http : option H3Ref) (h : Handler)
    (authority path : bytes) (make : Z -> option H3Ref -> Handler)
    (tr : list Call) :
  headers !! ":authority" = Some authority ->
  headers !! ":path" = Some path ->
  (path, make) ∈ routing_table ->
  _handshake_webtransport stream_id headers
    {| _http := http; _handler := Some h |} tr =
  MkRun (Raise AssertionError) {| _http := http; _handler := Some h |} tr.
Proof.
  intros A P R. unfold _handshake_webtransport. rewrite A, P.
  routed R; reflexivity.
Qed.

Lemma _handshake_webtransport_unrouted (stream_id : Z)
    (headers : gmap string string) (authority path : bytes) :
  headers !! ":authority" = Some authority ->
  headers !! ":path" = Some path ->
  path ∉ routing_table.*1 ->
  _handshake_webtransport stream_id headers =
  _send_response stream_id 404 true.
Proof.
  intros A P N. unfold _handshake_webtransport. rewrite A, P.
  cbn in N. repeat (apply not_elem_of_cons in N as [? N]).
  rewrite !bool_decide_false by congruence. done.
Qed.

(** The dispatch on a [HeadersReceived] event, as in the source. *)
Lemma _h3_event_received_headers `{Transport} (hs : list (bytes * bytes))
    (stream_id : Z) (stream_ended : bool) :
  let headers := headers_dict hs in
  let event := HeadersReceived hs stream_id stream_ended in
  headers !! ":method" = Some "CONNECT" ->
  headers !! ":protocol" = Some "webtransport" ->
  _h3_event_received event =
  (_handshake_webtransport stream_id headers ;; forward event).
Proof.
  intros headers event M P. subst headers event.
  unfold _h3_event_received. cbv zeta. by rewrite M, P.
Qed.

(** Whatever the request and the state of the connection, the calls made
    for a [HeadersReceived] event are appended to the history, and every
    response among them carries the draft marker. *)
Lemma responses_carry_draft_marker `{Transport} (hs : list (bytes * bytes))
    (stream_id : Z) (stream_ended : bool) (p : t) (tr : list Call) :
  exists new,
    trace (_h3_event_received (HeadersReceived hs stream_id stream_ended) p tr)
    = tr ++ new /\
    Forall carries_draft_marker new.
Proof.
  destruct p as [[c |] [[[] | [] | [] | []] |]];
    unfold _h3_event_received, _handshake_webtransport; cbv zeta;
    repeat (case_bool_decide; cbn); py_run;
    (eexists; split;
     [ rewrite <- ?app_assoc; first [reflexivity | symmetry; apply app_nil_r]
     | repeat constructor ]).
Qed.

(** C7. On a connection whose HTTP/3 layer exists, take a WebTransport
    CONNECT request that has [:authority] and [:path].  If the path is one
    of the four of the routing table and the connection has no handler,
    the handler of that path is created on the request's stream id and one
    response is sent, with status 200 and the stream left open.  If the
    path is none of the four, one response is sent, with status 404 and the
    stream ended, and the handler field is left as it was.  Paths are
    compared as byte strings.  And every response sent for a
    [HeadersReceived] event, whatever the request and the state of the
    connection, carries [sec-webtransport-http3-draft: draft02]. *)
Theorem handshake_routing `{Transport} :
  (forall (hs : list (bytes * bytes)) (stream_id : Z) (stream_ended : bool)
          (c : H3Ref) (authority path : bytes) (tr : list Call),
     let headers := headers_dict hs in
     let event := HeadersReceived hs stream_id stream_ended in
     headers !! ":method" = Some "CONNECT" ->
     headers !! ":protocol" = Some "webtransport" ->
     headers !! ":authority" = Some authority ->
     headers !! ":path" = Some path ->
     (forall make,
        (path, make) ∈ routing_table ->
        _h3_event_received event {| _http := Some c; _handler := None |} tr =
        MkRun (Return tt)
          {| _http := Some c;
             _handler := Some (make stream_id (Some c)) |}
          (tr ++ [Http_send_headers c stream_id
                    [(":status", "200"); draft_marker] false;
                  Handler_h3_event_received event])) /\
     (path ∉ routing_table.*1 ->
      forall handler,
        _h3_event_received event
          {| _http := Some c; _handler := handler |} tr =
        MkRun (Return tt) {| _http := Some c; _handler := handler |}
          (tr ++ Http_send_headers c stream_id
                   [(":status", "404"); draft_marker] true
              :: forwarded handler event))) /\
  (forall (hs : list (bytes * bytes)) (stream_id : Z) (stream_ended : bool)
          (p : t) (tr : list Call),
     exists new,
       trace
         (_h3_event_received (HeadersReceived hs stream_id stream_ended) p tr)
       = tr ++ new /\
       Forall carries_draft_marker new).
Proof.
  split; [| apply responses_carry_draft_marker].
  intros hs stream_id stream_ended c authority path tr headers event M P A R.
  rewrite (_h3_event_received_headers hs stream_id stream_ended M P).
  fold headers event. unfold mbind, Py_bind. split.
  - intros make T.
    rewrite (_handshake_webtransport_routed _ _ _ _ _ _ _ A R T).
    rewrite forward_ignored by done. by rewrite <- app_assoc.
  - intros N handler.
    rewrite (_handshake_webtransport_unrouted _ _ _ _ A R N).
    rewrite _send_response_run, forward_ignored by done.
    by rewrite <- app_assoc.
Qed.

Lemma handshake_routing_witness :
  _h3_event_received (H := example_transport)
    (connect_request "/video/echo/datagram")
    {| _http := Some 0%nat; _handler := None |} [] =
  MkRun (Return tt)
    {| _http := Some 0%nat;
       _handler :=
         Some (video_echo_datagram
                 (VideoEchoDatagram.__init__ 0 (Some 0%nat) this_protocol)) |}
    [Http_send_headers 0%nat 0 [(":status", "200"); draft_marker] false;
     Handler_h3_event_received (connect_request "/video/echo/datagram")] /\
  _h3_event_received (H := example_transport)
    (connect_request "/Video/echo/datagram")
    {| _http := Some 0%nat; _handler := None |} [] =
  MkRun (Return tt) {| _http := Some 0%nat; _handler := None |}
    [Http_send_headers 0%nat 0 [(":status", "404"); draft_marker] true].
Proof.
  split.
  - refine (proj1 (proj1 (@handshake_routing example_transport) _ 0 false
                     0%nat "localhost:4433" "/video/echo/datagram" [] _ _ _ _)
              (fun session_id http =>
                 video_echo_datagram
                   (VideoEchoDatagram.__init__ session_id http this_protocol))
              _); try reflexivity.
    unfold routing_table. do 3 apply list_elem_of_further.
    apply list_elem_of_here.
  - refine (proj2 (proj1 (@handshake_routing example_transport) _ 0 false
                     0%nat "localhost:4433" "/Video/echo/datagram" [] _ _ _ _)
              _ None); try reflexivity.
    cbn. intros N. repeat (apply elem_of_cons in N as [N | N]; [done |]).
    by apply elem_of_nil in N.
Defined.

Lemma malformed_request_400_witness :
  _h3_event_received (H := example_transport) get_request
    {| _http := Some 0%nat; _handler := None |} [] =
  MkRun (Return tt) {| _http := Some 0%nat; _handler := None |}
    [Http_send_headers 0%nat 0 [(":status", "400"); draft_marker] true].
Proof.
  refine (@malformed_request_400 example_transport _ 0 true 0%nat None [] _).
  left. discriminate.
Defined.

(** C4. The handler field holds at most one handler.  When it holds one, a
    WebTransport CONNECT request that has [:authority] and a path of the
    routing table makes [_handshake_webtransport] raise [AssertionError]
    before anything is assigned or sent; the exception leaves
    [_h3_event_received], and leaves [quic_event_received] when the request
    is the first HTTP/3 event decoded from a QUIC [StreamDataReceived]
    event; the protocol object and its handler are as before. *)
Theorem second_handshake_fails `{Transport} (hs : list (bytes * bytes))
    (stream_id : Z) (stream_ended : bool) (http : option H3Ref) (h : Handler)
    (authority path : bytes) (make : Z -> option H3Ref -> Handler)
    (tr : list Call) :
  let headers := headers_dict hs in
  let event := HeadersReceived hs stream_id stream_ended in
  let p := {| _http := http; _handler := Some h |} in
  headers !! ":method" = Some "CONNECT" ->
  headers !! ":protocol" = Some "webtransport" ->
  headers !! ":authority" = Some authority ->
  headers !! ":path" = Some path ->
  (path, make) ∈ routing_table ->
  _handshake_webtransport stream_id headers p tr =
  MkRun (Raise AssertionError) p tr /\
  _h3_event_received event p tr = MkRun (Raise AssertionError) p tr /\
  (forall c data end_stream quic_stream_id rest,
     let quic_event := StreamDataReceived data end_stream quic_stream_id in
     http = Some c ->
     decoded_h3_events (tr ++ [Http_handle_event c quic_event]) =
     event :: rest ->
     quic_event_received quic_event p tr =
     MkRun (Raise AssertionError) p (tr ++ [Http_handle_event c quic_event])).
Proof.
  intros headers event p M P A R T. subst headers event p.
  pose proof (_handshake_webtransport_again stream_id (headers_dict hs) http
                h authority path make tr A R T) as Again.
  assert (forall tr',
            _h3_event_received (HeadersReceived hs stream_id stream_ended)
              {| _http := http; _handler := Some h |} tr' =
            MkRun (Raise AssertionError)
              {| _http := http; _handler := Some h |} tr') as Event.
  { intros tr'.
    rewrite (_h3_event_received_headers hs stream_id stream_ended M P).
    unfold mbind, Py_bind.
    by rewrite (_handshake_webtransport_again _ _ _ _ _ _ _ _ A R T). }
  split; [done |]. split; [done |].
  intros c data end_stream quic_stream_id rest quic_event -> D.
  unfold quic_event_received. py_run. rewrite D. cbn [for_each].
  unfold mbind, Py_bind. by rewrite Event.
Qed.

Lemma second_handshake_fails_witness :
  _h3_event_received (H := example_transport)
    (connect_request "/audio/echo/stream") video_stream_session [] =
  MkRun (Raise AssertionError) video_stream_session [] /\
  quic_event_received (H := request_transport)
    (StreamDataReceived "/audio/echo/stream" false 4) video_stream_session []
  = MkRun (Raise AssertionError) video_stream_session
      [Http_handle_event 0%nat
         (StreamDataReceived "/audio/echo/stream" false 4)].
Proof.
  split.
  - refine (proj1 (proj2 (@second_handshake_fails example_transport
                            _ 0 false (Some 0%nat) _ "localhost:4433"
                            "/audio/echo/stream"
                            (fun session_id http =>
                               audio_echo_stream
                                 (AudioEchoStream.__init__ session_id http))
                            [] _ _ _ _ _)));
      try reflexivity.
    apply list_elem_of_here.
  - refine (proj2 (proj2 (@second_handshake_fails request_transport
                            (connect_headers "/audio/echo/stream") 0 false
                            (Some 0%nat) _ "localhost:4433"
                            "/audio/echo/stream"
                            (fun session_id http =>
                               audio_echo_stream
                                 (AudioEchoStream.__init__ session_id http))
                            [] _ _ _ _ _))
              0%nat "/audio/echo/stream" false 4 [] _ _);
      try reflexivity.
    apply list_elem_of_here.
Defined.

(** ** Session close *)

Lemma handler_session_closed_run (h : Handler) (tr : list Call) :
  handler_session_closed h tr = MkRun (Return tt) h tr.
Proof. by destruct h as [[] | [] | [] | []]. Qed.

(** C1 (amended). On a connection that has a handler, a [DataReceived]
    event that ends its stream and whose payload is at least three bytes
    long and starts with the bytes 0x68 0x43 makes the router print a line
    and call the handler's [session_closed]; the event is then passed to
    the handler's [h3_event_received] like any other, and the protocol
    object, its handler included, is left as it was: stream data and
    datagram events that come later are passed to the handler as before. *)
Theorem session_close_detected `{Transport} (data : bytes) (stream_id : Z)
    (http : option H3Ref) (h : Handler) (tr : list Call) :
  len data >= 3 ->
  byte_at data 0 = Some 0x68 ->
  byte_at data 1 = Some 0x43 ->
  let p := {| _http := http; _handler := Some h |} in
  let event := DataReceived data stream_id true in
  _h3_event_received event p tr =
  MkRun (Return tt) p
    (tr ++ [Builtin_print "session closed!!!!!!"; Handler_session_closed;
            Handler_h3_event_received event]) /\
  (forall later tr',
     ignored_by_handlers later = false ->
     _h3_event_received later (self (_h3_event_received event p tr)) tr' =
     on_handler "h3_event_received" (Handler_h3_event_received later)
       (handler_h3_event_received later) p tr').
Proof.
  intros L B0 B1 p event.
  assert (_h3_event_received event p tr =
          MkRun (Return tt) p
            (tr ++ [Builtin_print "session closed!!!!!!";
                    Handler_session_closed;
                    Handler_h3_event_received event])) as Close.
  { unfold _h3_event_received, event, is_close_session.
    rewrite !bool_decide_true by done. py_run.
    rewrite handler_session_closed_run. cbn.
    rewrite handler_ignores by done. cbn. by rewrite <- !app_assoc. }
  split; [done |]. intros later tr' I. rewrite Close. cbn [self].
  by destruct later.
Qed.

Lemma session_close_detected_witness :
  _h3_event_received (H := example_transport)
    (DataReceived close_capsule 0 true) video_stream_session [] =
  MkRun (Return tt) video_stream_session
    [Builtin_print "session closed!!!!!!"; Handler_session_closed;
     Handler_h3_event_received (DataReceived close_capsule 0 true)].
Proof.
  refine (proj1 (@session_close_detected example_transport close_capsule 0
                   (Some 0%nat) _ [] _ _ _)).
  - unfold len. cbn. lia.
  - reflexivity.
  - reflexivity.
Defined.

(** Against C1 as stated: a stream-ending [DataReceived] whose payload is
    the two bytes 0x68 0x43 does not reach [session_closed]; and after a
    close message that does, a chunk of stream data is still passed to the
    handler, which echoes it. *)
Lemma session_close_counterexample :
  trace (_h3_event_received (H := example_transport)
           (DataReceived "hC" 0 true) video_stream_session []) =
  [Handler_h3_event_received (DataReceived "hC" 0 true)] /\
  trace (for_each
           [DataReceived close_capsule 0 true;
            WebTransportStreamDataReceived "abc" 2 false 0]
           (_h3_event_received (H := example_transport))
           video_stream_session []) =
  [Builtin_print "session closed!!!!!!"; Handler_session_closed;
   Handler_h3_event_received (DataReceived close_capsule 0 true);
   Handler_h3_event_received (WebTransportStreamDataReceived "abc" 2 false 0);
   Http_create_webtransport_stream 0%nat 0 true;
   Quic_send_stream_data 3 "abc" false].
Proof. split; reflexivity. Qed.

(** ** Events on a connection without handler *)

(** C2. What a connection with no handler does with an event other than
    [HeadersReceived]: a stream-ending [DataReceived] that passes the close
    test of line 206 makes the router print a line and then raise
    [AttributeError], for [session_closed] is looked up on [None]; any
    other event is dropped, with no call and no change.  The message
    [b"\x68\x43\x00"] is of the first kind. *)
Theorem event_without_handler `{Transport} (http : option H3Ref)
    (event : H3Event) (tr : list Call) :
  let p := {| _http := http; _handler := None |} in
  match event with
  | HeadersReceived _ _ _ => True
  | DataReceived data _ stream_ended =>
      _h3_event_received event p tr =
      if is_close_session data stream_ended
      then MkRun (Raise (AttributeError "NoneType" "session_closed")) p
             (tr ++ [Builtin_print "session closed!!!!!!"])
      else MkRun (Return tt) p tr
  | _ => _h3_event_received event p tr = MkRun (Return tt) p tr
  end /\
  is_close_session close_capsule true = true /\
  forall stream_id,
    _h3_event_received (DataReceived close_capsule stream_id true) p tr =
    MkRun (Raise (AttributeError "NoneType" "session_closed")) p
      (tr ++ [Builtin_print "session closed!!!!!!"]).
Proof.
  intros p. split; [| by split].
  destruct event as [| data sid ended | | |]; try done.
  unfold _h3_event_received. by destruct (is_close_session data ended).
Qed.

(** ** Stream resets *)

(** A reset on a stream echo handler removes the mapping of the stream, if
    there is one, and the event goes on to the HTTP/3 layer. *)
Lemma stream_reset_on_stream_handler `{Transport} (c : H3Ref)
    (o : AudioEchoStream.t) (v : VideoEchoStream.t)
    (error_code stream_id : Z) (tr : list Call) :
  let reset := StreamReset error_code stream_id in
  let tr' := tr ++ [Handler_stream_closed stream_id; Http_handle_event c reset]
  in
  decoded_h3_events tr' = [] ->
  quic_event_received reset
    {| _http := Some c; _handler := Some (audio_echo_stream o) |} tr =
  MkRun (Return tt)
    {| _http := Some c;
       _handler :=
         Some (audio_echo_stream
                 (AudioEchoStream.set_echo_stream_id
                    (delete stream_id (AudioEchoStream._echo_stream_id o))
                    o)) |} tr' /\
  quic_event_received reset
    {| _http := Some c; _handler := Some (video_echo_stream v) |} tr =
  MkRun (Return tt)
    {| _http := Some c;
       _handler :=
         Some (video_echo_stream
                 (VideoEchoStream.set_echo_stream_id
                    (delete stream_id (VideoEchoStream._echo_stream_id v))
                    v)) |} tr'.
Proof.
  intros reset tr' D. subst reset tr'. unfold quic_event_received.
  split; py_run.
  - rewrite AudioEchoStream_stream_closed_run. py_run.
    rewrite <- app_assoc. cbn. by rewrite D.
  - rewrite VideoEchoStream_stream_closed_run. py_run.
    rewrite <- app_assoc. cbn. by rewrite D.
Qed.

(** C3, on the code.  With a datagram echo handler (audio or video), a
    [StreamReset] event makes [quic_event_received] call [stream_closed],
    which raises [AttributeError]: the class has no [_echo_stream_id].  The
    exception leaves [quic_event_received] before the event is given to the
    HTTP/3 layer. *)
Theorem stream_reset_on_datagram_handler `{Transport} (http : option H3Ref)
    (session_id : Z) (handler_http : option H3Ref)
    (error_code stream_id : Z) (tr : list Call) :
  (let p := {| _http := http;
               _handler :=
                 Some (audio_echo_datagram
                         (AudioEchoDatagram.__init__ session_id handler_http
                            this_protocol)) |} in
   quic_event_received (StreamReset error_code stream_id) p tr =
   MkRun (Raise (AttributeError "AudioEchoDatagram" "_echo_stream_id")) p
     (tr ++ [Handler_stream_closed stream_id])) /\
  (let p := {| _http := http;
               _handler :=
                 Some (video_echo_datagram
                         (VideoEchoDatagram.__init__ session_id handler_http
                            this_protocol)) |} in
   quic_event_received (StreamReset error_code stream_id) p tr =
   MkRun (Raise (AttributeError "VideoEchoDatagram" "_echo_stream_id")) p
     (tr ++ [Handler_stream_closed stream_id])).
Proof. split; reflexivity. Qed.

(** The two inputs on which the code leaves the specification. *)
Example close_message_before_handshake :
  _h3_event_received (H := example_transport)
    (DataReceived close_capsule 0 true)
    {| _http := Some 0%nat; _handler := None |} [] =
  MkRun (Raise (AttributeError "NoneType" "session_closed"))
    {| _http := Some 0%nat; _handler := None |}
    [Builtin_print "session closed!!!!!!"].
Proof. reflexivity. Qed.

Example stream_reset_on_datagram_session :
  quic_event_received (H := example_transport) (StreamReset 0 2)
    audio_datagram_session [] =
  MkRun (Raise (AttributeError "AudioEchoDatagram" "_echo_stream_id"))
    audio_datagram_session [Handler_stream_closed 2].
Proof. reflexivity. Qed.

(** The datagram scenario of the specification: two datagrams are echoed
    one by one. *)
Example two_datagrams_echoed :
  for_each [DatagramReceived bytes_1_2 0; DatagramReceived bytes_3 0]
    (_h3_event_received (H := example_transport)) audio_datagram_session [] =
  MkRun (Return tt) audio_datagram_session
    [Handler_h3_event_received (DatagramReceived bytes_1_2 0);
     Http_send_datagram 0%nat 0 bytes_1_2; Protocol_transmit;
     Handler_h3_event_received (DatagramReceived bytes_3 0);
     Http_send_datagram 0%nat 0 bytes_3; Protocol_transmit].
Proof. reflexivity. Qed.

(** * Further properties of the code *)

(** ** Settings of the HTTP/3 connection *)

(** X1. [_validate_settings] hands to the inherited validation the peer's
    settings with [H3_DATAGRAM] forced to 1: what the peer sent for that
    setting, or whether it sent it at all, makes no difference to the
    result, and every other setting is validated as sent. *)
Theorem validate_settings_forces_datagram {R} (H3_DATAGRAM : Z)
    (super_validate_settings : gmap Z Z -> R) (settings : gmap Z Z) (v : Z) :
  H3ConnectionWithDatagram._validate_settings H3_DATAGRAM
    super_validate_settings (<[H3_DATAGRAM:=v]> settings) =
  H3ConnectionWithDatagram._validate_settings H3_DATAGRAM
    super_validate_settings settings /\
  H3ConnectionWithDatagram._validate_settings H3_DATAGRAM
    super_validate_settings (delete H3_DATAGRAM settings) =
  H3ConnectionWithDatagram._validate_settings H3_DATAGRAM
    super_validate_settings settings /\
  H3ConnectionWithDatagram._validate_settings H3_DATAGRAM
    (fun validated => validated) settings !! H3_DATAGRAM = Some 1 /\
  forall setting,
    setting <> H3_DATAGRAM ->
    H3ConnectionWithDatagram._validate_settings H3_DATAGRAM
      (fun validated => validated) settings !! setting =
    settings !! setting.
Proof.
  unfold H3ConnectionWithDatagram._validate_settings. cbv zeta.
  rewrite insert_insert_eq, insert_delete_eq, lookup_insert_eq.
  repeat split. intros setting N. by rewrite lookup_insert_ne.
Qed.

Lemma validate_settings_forces_datagram_witness :
  H3ConnectionWithDatagram._validate_settings 0x33 (fun validated => validated)
    {[ 0x33 := 0; 0x08 := 1 ]} !! 0x08 = Some 1.
Proof.
  rewrite (proj2 (proj2 (proj2
             (validate_settings_forces_datagram 0x33 (fun v => v)
                {[ 0x33 := 0; 0x08 := 1 ]} 0))) 0x08).
  - reflexivity.
  - discriminate.
Defined.

(** X2. The settings the server announces are the inherited ones with the
    datagram setting of draft 05 and the extended CONNECT setting both set
    to 1, whatever they were; no other setting is touched, and applying the
    method to its own result changes nothing. *)
Theorem local_settings_enable_extensions (inherited : gmap Z Z) :
  let settings := H3ConnectionWithDatagram._get_local_settings inherited in
  settings !! H3_DATAGRAM_05 = Some 1 /\
  settings !! ENABLE_CONNECT_PROTOCOL = Some 1 /\
  (forall setting,
     setting <> H3_DATAGRAM_05 ->
     setting <> ENABLE_CONNECT_PROTOCOL ->
     settings !! setting = inherited !! setting) /\
  H3ConnectionWithDatagram._get_local_settings settings = settings.
Proof.
  unfold H3ConnectionWithDatagram._get_local_settings. cbv zeta.
  assert (ENABLE_CONNECT_PROTOCOL <> H3_DATAGRAM_05) as N by done.
  split; [| split; [| split]].
  - by rewrite lookup_insert_ne, lookup_insert_eq.
  - apply lookup_insert_eq.
  - intros setting N1 N2. by rewrite !lookup_insert_ne.
  - apply map_eq. intros j.
    destruct (decide (j = ENABLE_CONNECT_PROTOCOL)) as [-> | N2].
    { by rewrite !lookup_insert_eq. }
    rewrite !(lookup_insert_ne _ ENABLE_CONNECT_PROTOCOL) by done.
    destruct (decide (j = H3_DATAGRAM_05)) as [-> | N1].
    { by rewrite !lookup_insert_eq. }
    rewrite !(lookup_insert_ne _ H3_DATAGRAM_05) by done.
    by rewrite !lookup_insert_ne.
Qed.

Lemma local_settings_enable_extensions_witness :
  H3ConnectionWithDatagram._get_local_settings {[ 0x01 := 4096; 0x08 := 0 ]}
    !! 0x01 = Some 4096.
Proof.
  rewrite (proj1 (proj2 (proj2
             (local_settings_enable_extensions
                {[ 0x01 := 4096; 0x08 := 0 ]}))) 0x01).
  - reflexivity.
  - discriminate.
  - discriminate.
Defined.

(** ** Request headers *)

Lemma headers_dict_snoc (hs : list (bytes * bytes)) (k v : bytes) :
  headers_dict (hs ++ [(k, v)]) = <[k:=v]> (headers_dict hs).
Proof. unfold headers_dict. by rewrite foldl_snoc. Qed.

(** X3. The dict built from the header list of a request gives each name
    the value of its last occurrence in the list, and nothing to a name
    that does not occur: when a pseudo-header is repeated, the last one is
    the one the handshake sees. *)
Theorem headers_dict_last_wins (hs : list (bytes * bytes)) (name : bytes) :
  headers_dict hs !! name =
  snd <$> last (filter (fun hv => hv.1 = name) hs).
Proof.
  induction hs as [| [k v] hs IH] using rev_ind; [done |].
  rewrite headers_dict_snoc, filter_app.
  destruct (decide (k = name)) as [-> | N].
  - rewrite lookup_insert_eq, filter_cons_True by done.
    by rewrite filter_nil, last_snoc.
  - rewrite lookup_insert_ne, filter_cons_False by done.
    by rewrite filter_nil, app_nil_r.
Qed.

(** ** The close test *)

Lemma byte_is (a : ascii) (n : N) :
  (n < 256)%N -> Z.of_N (N_of_ascii a) = Z.of_N n -> a = ascii_of_N n.
Proof.
  intros B E. apply N2Z.inj in E. rewrite <- E. symmetry.
  apply ascii_N_embedding.
Qed.

(** X4. The close test of line 206 holds exactly of the stream-ending
    [DataReceived] events whose payload is the byte 0x68, the byte 0x43 and
    at least one more byte; in particular it fails on the two-byte payload
    and on every event that does not end its stream. *)
Theorem close_test_exact (data : bytes) (stream_ended : bool) :
  is_close_session data stream_ended = true <->
  stream_ended = true /\
  exists third rest, data = String "h" (String "C" (String third rest)).
Proof.
  unfold is_close_session, len, byte_at. split.
  - intros T. apply andb_prop in T as [T B1]. apply andb_prop in T as [T B0].
    apply andb_prop in T as [L E]. apply bool_decide_eq_true in L, B0, B1.
    split; [done |].
    destruct data as [| a0 [| a1 [| a2 rest]]]; cbn in L; try lia.
    cbn in B0, B1. injection B0 as B0. injection B1 as B1.
    apply (byte_is a0 0x68) in B0; [| done].
    apply (byte_is a1 0x43) in B1; [| done].
    subst a0 a1. by exists a2, rest.
  - intros [-> (third & rest & ->)]. cbn.
    rewrite bool_decide_true; [done | lia].
Qed.

(** ** Stream echo, chunk by chunk *)

Lemma writes_app (calls calls' : list Call) :
  writes (calls ++ calls') = writes calls ++ writes calls'.
Proof. apply omap_app. Qed.

Lemma AudioEchoStream_chunk `{Transport} (c : H3Ref)
    (session_id : Z) (d : gmap Z Z) (data : bytes) (stream_id : Z)
    (ended : bool) (event_session : Z) (tr : list Call) :
  exists d' new,
    AudioEchoStream.h3_event_received
      (WebTransportStreamDataReceived data stream_id ended event_session)
      (AudioEchoStream.Build_t session_id (Some c) d) tr =
    MkRun (Return tt) (AudioEchoStream.Build_t session_id (Some c) d')
      (tr ++ new) /\
    writes new = [(data, ended)] /\
    (forall other, other <> stream_id -> d' !! other = d !! other) /\
    (is_Some (d' !! stream_id) <-> ended = false).
Proof.
  destruct (d !! stream_id) as [out |] eqn:E.
  - eexists _, _. split; [by apply AudioEchoStream_next_chunk |].
    split; [done |]. destruct ended.
    + split; [intros; by rewrite lookup_delete_ne |].
      rewrite lookup_delete_eq. split; [by intros [] | done].
    + split; [done |]. by rewrite E.
  - eexists _, _. split; [by apply AudioEchoStream_first_chunk |].
    split; [done |]. destruct ended.
    + split; [done |]. rewrite E. split; [by intros [] | done].
    + split; [intros; by rewrite lookup_insert_ne |].
      by rewrite lookup_insert_eq.
Qed.

Lemma VideoEchoStream_chunk `{Transport} (c : H3Ref)
    (session_id : Z) (d : gmap Z Z) (data : bytes) (stream_id : Z)
    (ended : bool) (event_session : Z) (tr : list Call) :
  exists d' new,
    VideoEchoStream.h3_event_received
      (WebTransportStreamDataReceived data stream_id ended event_session)
      (VideoEchoStream.Build_t session_id (Some c) d) tr =
    MkRun (Return tt) (VideoEchoStream.Build_t session_id (Some c) d')
      (tr ++ new) /\
    writes new = [(data, ended)] /\
    (forall other, other <> stream_id -> d' !! other = d !! other) /\
    (is_Some (d' !! stream_id) <-> ended = false).
Proof.
  destruct (d !! stream_id) as [out |] eqn:E.
  - eexists _, _. split; [by apply VideoEchoStream_next_chunk |].
    split; [done |]. destruct ended.
    + split; [intros; by rewrite lookup_delete_ne |].
      rewrite lookup_delete_eq. split; [by intros [] | done].
    + split; [done |]. by rewrite E.
  - eexists _, _. split; [by apply VideoEchoStream_first_chunk |].
    split; [done |]. destruct ended.
    + split; [done |]. rewrite E. split; [by intros [] | done].
    + split; [intros; by rewrite lookup_insert_ne |].
      by rewrite lookup_insert_eq.
Qed.

(** X5. Whatever its mapping, a stream echo handler (audio or video) whose
    transport is present returns normally from a chunk of stream data,
    makes exactly one write, of the chunk's bytes and flag, leaves the
    mapping of every other inbound stream as it was, and leaves the chunk's
    own stream mapped if and only if the chunk did not end the stream. *)
Theorem chunk_touches_own_stream_only `{Transport} (c : H3Ref)
    (session_id : Z) (d : gmap Z Z) (data : bytes) (stream_id : Z)
    (ended : bool) (event_session : Z) (tr : list Call) :
  let event :=
    WebTransportStreamDataReceived data stream_id ended event_session in
  (let r := AudioEchoStream.h3_event_received event
              (AudioEchoStream.Build_t session_id (Some c) d) tr in
   let d' := AudioEchoStream._echo_stream_id (self r) in
   outcome r = Return tt /\
   writes (drop (length tr) (trace r)) = [(data, ended)] /\
   (forall other, other <> stream_id -> d' !! other = d !! other) /\
   (is_Some (d' !! stream_id) <-> ended = false)) /\
  (let r := VideoEchoStream.h3_event_received event
              (VideoEchoStream.Build_t session_id (Some c) d) tr in
   let d' := VideoEchoStream._echo_stream_id (self r) in
   outcome r = Return tt /\
   writes (drop (length tr) (trace r)) = [(data, ended)] /\
   (forall other, other <> stream_id -> d' !! other = d !! other) /\
   (is_Some (d' !! stream_id) <-> ended = false)).
Proof.
  intros event. subst event. split; cbv zeta.
  - destruct (AudioEchoStream_chunk c session_id d data stream_id ended
                event_session tr) as (d' & new & -> & W & F & M).
    cbn. by rewrite drop_app_length.
  - destruct (VideoEchoStream_chunk c session_id d data stream_id ended
                event_session tr) as (d' & new & -> & W & F & M).
    cbn. by rewrite drop_app_length.
Qed.

Lemma chunk_touches_own_stream_only_witness :
  AudioEchoStream._echo_stream_id
    (self (AudioEchoStream.h3_event_received (H := example_transport)
             (WebTransportStreamDataReceived "abc" 2 true 0)
             (AudioEchoStream.Build_t 0 (Some 0%nat) {[ 2 := 3; 6 := 7 ]})
             [])) !! 6 =
  ({[ 2 := 3; 6 := 7 ]} : gmap Z Z) !! 6.
Proof.
  apply (proj1 (@chunk_touches_own_stream_only example_transport 0%nat 0
                  {[ 2 := 3; 6 := 7 ]} "abc" 2 true 0 [])).
  discriminate.
Defined.

Section any_stream_data.

Context {S : Type} (h3_event_received : H3Event -> Py S unit).
Context (object : gmap Z Z -> S).

Hypothesis chunk : forall d data stream_id ended event_session tr,
  exists d' new,
    h3_event_received
      (WebTransportStreamDataReceived data stream_id ended event_session)
      (object d) tr =
    MkRun (Return tt) (object d') (tr ++ new) /\
    writes new = [(data, ended)] /\
    (forall other, other <> stream_id -> d' !! other = d !! other) /\
    (is_Some (d' !! stream_id) <-> ended = false).

Lemma any_stream_data_echoed (es : list (bytes * Z * bool * Z)) :
  forall d tr,
    exists d' new,
      for_each (map stream_data_event es) h3_event_received (object d) tr =
      MkRun (Return tt) (object d') (tr ++ new) /\
      writes new = map (fun e => (e.1.1.1, e.1.2)) es.
Proof.
  induction es as [| [[[data stream_id] ended] event_session] es IH];
    intros d tr.
  - exists d, []. by rewrite app_nil_r.
  - destruct (chunk d data stream_id ended event_session tr)
      as (d1 & new1 & R1 & W1 & _).
    destruct (IH d1 (tr ++ new1)) as (d2 & new2 & R2 & W2).
    exists d2, (new1 ++ new2). split.
    + cbn [map for_each]. unfold mbind, Py_bind, stream_data_event at 1.
      cbn [fst snd]. rewrite R1, R2. by rewrite app_assoc.
    + rewrite writes_app, W1, W2. done.
Qed.

End any_stream_data.

(** X6. A stream echo handler (audio or video) whose transport is present,
    given any sequence of stream data events - of any streams, interleaved
    in any way, with any flags, from any mapping - returns normally from
    every one, and the writes it makes are, in the order of the events,
    one per event with the bytes and the end-of-stream flag of that
    event. *)
Theorem stream_data_echoed_in_order `{Transport} (c : H3Ref)
    (session_id : Z) (d : gmap Z Z) (es : list (bytes * Z * bool * Z))
    (tr : list Call) :
  (exists d' new,
     for_each (map stream_data_event es) AudioEchoStream.h3_event_received
       (AudioEchoStream.Build_t session_id (Some c) d) tr =
     MkRun (Return tt) (AudioEchoStream.Build_t session_id (Some c) d')
       (tr ++ new) /\
     writes new = map (fun e => (e.1.1.1, e.1.2)) es) /\
  (exists d' new,
     for_each (map stream_data_event es) VideoEchoStream.h3_event_received
       (VideoEchoStream.Build_t session_id (Some c) d) tr =
     MkRun (Return tt) (VideoEchoStream.Build_t session_id (Some c) d')
       (tr ++ new) /\
     writes new = map (fun e => (e.1.1.1, e.1.2)) es).
Proof.
  split.
  - apply (any_stream_data_echoed AudioEchoStream.h3_event_received
             (AudioEchoStream.Build_t session_id (Some c))).
    intros. apply AudioEchoStream_chunk.
  - apply (any_stream_data_echoed VideoEchoStream.h3_event_received
             (VideoEchoStream.Build_t session_id (Some c))).
    intros. apply VideoEchoStream_chunk.
Qed.

(** ** Datagram echo, datagram by datagram *)

(** X7. A datagram echo handler (audio or video) whose transport is
    present answers any sequence of datagram events by the sequence of
    their echoes: for each event in turn, one [send_datagram] of its
    payload on the handler's session id and one [transmit].  Payloads are
    neither merged nor reordered and the handler is left as it was. *)
Theorem datagrams_echoed_in_order (c : H3Ref) (session_id : Z)
    (es : list (bytes * Z)) (tr : list Call) :
  (let o := AudioEchoDatagram.__init__ session_id (Some c) this_protocol in
   for_each (map datagram_event es) AudioEchoDatagram.h3_event_received o tr
   = MkRun (Return tt) o (tr ++ datagram_echoes c session_id es)) /\
  (let o := VideoEchoDatagram.__init__ session_id (Some c) this_protocol in
   for_each (map datagram_event es) VideoEchoDatagram.h3_event_received o tr
   = MkRun (Return tt) o (tr ++ datagram_echoes c session_id es)).
Proof.
  split; cbv zeta; revert tr;
    (induction es as [| [data flow_id] es IH]; intros tr;
     [ cbn; by rewrite app_nil_r
     | cbn [map for_each datagram_echoes flat_map];
       unfold datagram_event at 1; py_run;
       fold (datagram_echoes c session_id es);
       rewrite IH; by rewrite <- !app_assoc ]).
Qed.

(** ** The router, event by event *)

Lemma _h3_event_received_parts `{Transport} (event : H3Event) :
  _h3_event_received event = (dispatch event ;; forward event).
Proof. reflexivity. Qed.

Lemma responses_app (calls calls' : list Call) :
  responses (calls ++ calls') = responses calls ++ responses calls'.
Proof. apply omap_app. Qed.

(** Closes the goals left by the case analysis of [dispatch]. *)
Ltac appended :=
  eexists; split;
  [ rewrite <- ?app_assoc; first [reflexivity | symmetry; apply app_nil_r]
  | ].

Ltac allowed :=
  unfold allowed_responses;
  first [ apply list_elem_of_here
        | apply list_elem_of_further, list_elem_of_here
        | do 2 apply list_elem_of_further; apply list_elem_of_here
        | do 3 apply list_elem_of_further; apply list_elem_of_here ].

Ltac dispatched :=
  (split; [done |]); (split; [repeat constructor |]);
  (split; [allowed |]); (split; [done |]);
  first [done | split; [done | by intros ? [=]]].

Lemma dispatch_anatomy `{Transport} (event : H3Event) (http : option H3Ref)
    (handler : option Handler) (tr : list Call) :
  let r := dispatch event {| _http := http; _handler := handler |} tr in
  exists pre,
    trace r = tr ++ pre /\
    _http (self r) = http /\
    Forall (fun c => is_echo_call c = false) pre /\
    responses pre ∈ allowed_responses /\
    (is_headers_event event = false -> responses pre = []) /\
    match handler with
    | Some h => _handler (self r) = Some h
    | None =>
        (is_headers_event event = false -> _handler (self r) = None) /\
        forall h', _handler (self r) = Some h' ->
                   (handler_identity h').2 = http
    end.
Proof.
  destruct event as [hs sid e | data sid e | | |]; cbv zeta.
  - destruct http as [c |], handler as [h |];
      unfold dispatch, _handshake_webtransport; cbv zeta;
      repeat (case_bool_decide; cbn); py_run; appended;
      (split; [done |]); (split; [repeat constructor |]);
      (split; [allowed |]); (split; [done |]);
      try done; (split; [done |]); by intros h' [= <-].
  - unfold dispatch. destruct (is_close_session data e); py_run.
    + destruct handler as [h |]; cbn.
      * rewrite handler_session_closed_run. cbn. appended. dispatched.
      * appended. dispatched.
    + appended. destruct handler; dispatched.
  - py_run. appended. destruct handler; dispatched.
  - py_run. appended. destruct handler; dispatched.
  - py_run. appended. destruct handler; dispatched.
Qed.

Ltac echoed_calls :=
  eexists; split;
  [ rewrite <- ?app_assoc; first [reflexivity | symmetry; apply app_nil_r]
  | split; [repeat constructor | split; [done | try done]] ].

Lemma handler_h3_event_received_anatomy `{Transport} (event : H3Event)
    (h : Handler) (tr : list Call) :
  let r := handler_h3_event_received event h tr in
  exists new,
    trace r = tr ++ new /\
    Forall (fun c => is_echo_call c = true) new /\
    handler_identity (self r) = handler_identity h /\
    (ignored_by_handlers event = true -> new = []).
Proof.
  cbv zeta.
  destruct h as [[s [c |] d] | [s [c |] d] | [s [c |] pr] | [s [c |] pr]];
    destruct event as [| | data sid e es | data flow |];
    try (cbn; echoed_calls).
  - unfold handler_h3_event_received, bound.
    destruct (d !! sid) eqn:E.
    + erewrite AudioEchoStream_next_chunk by done. cbn. echoed_calls.
    + rewrite AudioEchoStream_first_chunk by done. cbn. echoed_calls.
  - unfold handler_h3_event_received. py_run.
    case_bool_decide; py_run; echoed_calls.
  - unfold handler_h3_event_received, bound.
    destruct (d !! sid) eqn:E.
    + erewrite VideoEchoStream_next_chunk by done. cbn. echoed_calls.
    + rewrite VideoEchoStream_first_chunk by done. cbn. echoed_calls.
  - unfold handler_h3_event_received. py_run.
    case_bool_decide; py_run; echoed_calls.
  - unfold handler_h3_event_received. py_run. echoed_calls.
  - unfold handler_h3_event_received. py_run. echoed_calls.
Qed.

Lemma handler_stream_closed_anatomy (stream_id : Z) (h : Handler)
    (tr : list Call) :
  let r := handler_stream_closed stream_id h tr in
  trace r = tr /\ handler_identity (self r) = handler_identity h.
Proof.
  cbv zeta. destruct h as [o | o | [] | []]; try done.
  - unfold handler_stream_closed, bound.
    by rewrite AudioEchoStream_stream_closed_run.
  - unfold handler_stream_closed, bound.
    by rewrite VideoEchoStream_stream_closed_run.
Qed.

Lemma responses_of_echo (calls : list Call) :
  Forall (fun c => is_echo_call c = true) calls -> responses calls = [].
Proof.
  induction 1 as [| c calls E _ IH]; [done |].
  unfold responses in *. cbn. rewrite IH. by destruct c.
Qed.

Lemma forward_anatomy `{Transport} (event : H3Event) (http : option H3Ref)
    (handler : option Handler) (tr : list Call) :
  let r := forward event {| _http := http; _handler := handler |} tr in
  exists new,
    trace r = tr ++ new /\
    _http (self r) = http /\
    responses new = [] /\
    match handler with
    | None => new = [] /\ _handler (self r) = None
    | Some h =>
        (exists h', _handler (self r) = Some h' /\
                    handler_identity h' = handler_identity h) /\
        (ignored_by_handlers event = true ->
         new = [Handler_h3_event_received event])
    end.
Proof.
  cbv zeta. unfold forward. py_run. destruct handler as [h |]; cbn.
  - destruct (handler_h3_event_received_anatomy event h
                (tr ++ [Handler_h3_event_received event]))
      as (new & T & E & I & G).
    exists (Handler_h3_event_received event :: new).
    rewrite T, <- app_assoc. split; [done |]. split; [done |].
    split; [by apply responses_of_echo in E |].
    split; [by eexists |]. intros Ig. by rewrite G.
  - exists []. by rewrite app_nil_r.
Qed.

Lemma _h3_event_received_anatomy `{Transport} (event : H3Event)
    (http : option H3Ref) (handler : option Handler) (tr : list Call) :
  let r :=
    _h3_event_received event {| _http := http; _handler := handler |} tr in
  exists new,
    trace r = tr ++ new /\
    _http (self r) = http /\
    responses new ∈ allowed_responses /\
    (is_headers_event event = false -> responses new = []) /\
    match handler with
    | Some h =>
        exists h', _handler (self r) = Some h' /\
                   handler_identity h' = handler_identity h
    | None =>
        Forall (fun c => is_echo_call c = false) new /\
        (is_headers_event event = false -> _handler (self r) = None) /\
        forall h', _handler (self r) = Some h' ->
                   (handler_identity h').2 = http
    end.
Proof.
  cbv zeta. rewrite _h3_event_received_parts. unfold mbind, Py_bind.
  destruct (dispatch_anatomy event http handler tr)
    as (pre & T & Hh & NE & A & NH & K).
  destruct (dispatch event {| _http := http; _handler := handler |} tr)
    as [[[] | exn] [http1 handler1] tr1]; cbn in T, Hh, K; subst tr1 http1.
  - destruct (forward_anatomy event http handler1 (tr ++ pre))
      as (new & T & Hh & R & F).
    exists (pre ++ new). rewrite T, app_assoc. split; [done |].
    split; [done |]. rewrite responses_app, R, app_nil_r.
    split; [done |]. split; [done |].
    destruct handler as [h |].
    + subst handler1. by destruct F as [F _].
    + destruct K as [K1 K2]. destruct handler1 as [h1 |].
      * destruct F as [(h' & -> & I) G].
        split; [| split].
        -- apply Forall_app. split; [done |].
           destruct event; try (by specialize (K1 eq_refl)).
           rewrite G by done. by repeat constructor.
        -- intros N. by specialize (K1 N).
        -- intros h'' [= <-]. rewrite I. by apply K2.
      * destruct F as [-> ->]. rewrite app_nil_r. split; [done |].
        split; [done |]. by intros h' [=].
  - exists pre. cbn. split; [done |]. split; [done |]. split; [done |].
    split; [done |]. destruct handler as [h |]; [by eexists |].
    by destruct K.
Qed.

(** X8. Whatever the state of the connection, one HTTP/3 event adds calls
    to the history without touching what is there, and among them there is
    at most one response: none for an event that is not [HeadersReceived],
    and for a [HeadersReceived] event none or one of - status 200 with the
    stream left open, status 400 with the stream ended, status 404 with the
    stream ended - each with the draft marker as its only other header. *)
Theorem at_most_one_response `{Transport} (event : H3Event) (p : t)
    (tr : list Call) :
  let r := _h3_event_received event p tr in
  let new := drop (length tr) (trace r) in
  trace r = tr ++ new /\
  match event with
  | HeadersReceived _ _ _ => responses new ∈ allowed_responses
  | _ => responses new = []
  end.
Proof.
  cbv zeta. destruct p as [http handler].
  destruct (_h3_event_received_anatomy event http handler tr)
    as (new & -> & _ & A & N & _).
  rewrite drop_app_length. split; [done |].
  destruct event; try done; by apply N.
Qed.

(** X9. On a connection without handler no HTTP/3 event makes the server
    echo anything: no stream is created, no stream data or datagram is
    sent and nothing is transmitted, even when the event raises.  And only
    a [HeadersReceived] event can leave a handler behind. *)
Theorem no_echo_without_handler `{Transport} (event : H3Event)
    (http : option H3Ref) (tr : list Call) :
  let r :=
    _h3_event_received event {| _http := http; _handler := None |} tr in
  Forall (fun c => is_echo_call c = false) (drop (length tr) (trace r)) /\
  match event with
  | HeadersReceived _ _ _ => True
  | _ => _handler (self r) = None
  end.
Proof.
  cbv zeta.
  destruct (_h3_event_received_anatomy event http None tr)
    as (new & -> & _ & _ & _ & E & N & _).
  rewrite drop_app_length. split; [done |].
  destruct event; try done; by apply N.
Qed.

(** ** The handler of a connection *)

(** What every step of a loop keeps, the loop keeps, whether it runs to
    the end or stops at an exception. *)
Lemma for_each_keeps {S A} (P : S -> Prop) (body : A -> Py S unit)
    (xs : list A) :
  (forall x s tr, P s -> P (self (body x s tr))) ->
  forall s tr, P s -> P (self (for_each xs body s tr)).
Proof.
  intros Step. induction xs as [| x xs IH]; intros s tr Ps; [done |].
  cbn [for_each]. unfold mbind, Py_bind.
  pose proof (Step x s tr Ps) as Px.
  destruct (body x s tr) as [[[] | exn] s' tr']; cbn in Px; [| done].
  by apply IH.
Qed.

Lemma _h3_event_received_keeps_identity `{Transport}
    (i : string * Z * option H3Ref) (event : H3Event) (p : t)
    (tr : list Call) :
  handler_identity <$> _handler p = Some i ->
  handler_identity <$> _handler (self (_h3_event_received event p tr)) =
  Some i.
Proof.
  destruct p as [http [h |]]; [| done]. intros [= <-].
  destruct (_h3_event_received_anatomy event http (Some h) tr)
    as (new & _ & _ & _ & _ & h' & -> & I).
  cbn. by rewrite I.
Qed.

Lemma quic_event_received_parts `{Transport} (event : QuicEvent) :
  quic_event_received event = (on_quic_event event ;; pass_to_h3 event).
Proof. reflexivity. Qed.

(** What the first part of [quic_event_received] does to the connection:
    the HTTP/3 layer stays or is created, and a handler stays the one it
    is. *)
Lemma on_quic_event_anatomy (event : QuicEvent) (http : option H3Ref)
    (handler : option Handler) (tr : list Call) :
  let r := on_quic_event event {| _http := http; _handler := handler |} tr in
  (is_Some http -> is_Some (_http (self r))) /\
  match handler with
  | Some h =>
      exists h', _handler (self r) = Some h' /\
                 handler_identity h = handler_identity h'
  | None => _handler (self r) = None
  end.
Proof.
  cbv zeta. destruct event as [alpn | code sid | | | |]; unfold on_quic_event.
  - py_run. split; [by eexists |]. destruct handler; [by eexists | done].
  - destruct handler as [h |]; py_run; [| done].
    destruct (handler_stream_closed_anatomy sid h
                (tr ++ [Handler_stream_closed sid])) as [_ I].
    split; [done |]. by eexists.
  - py_run. split; [done |]. destruct handler; [by eexists | done].
  - py_run. split; [done |]. destruct handler; [by eexists | done].
  - py_run. split; [done |]. destruct handler; [by eexists | done].
  - py_run. split; [done |]. destruct handler; [by eexists | done].
Qed.

Lemma pass_to_h3_keeps `{Transport} (P : t -> Prop) (event : QuicEvent) :
  (forall h3_event p tr,
     P p -> P (self (_h3_event_received h3_event p tr))) ->
  forall p tr, P p -> P (self (pass_to_h3 event p tr)).
Proof.
  intros Step [[c |] handler] tr Pp; [| done].
  unfold pass_to_h3. py_run. by apply for_each_keeps.
Qed.

(** X10. Once a connection has a handler, no event changes which handler
    it is: after any HTTP/3 event and after any QUIC event - a second
    handshake, a close message, a reset, a new protocol negotiation, with
    or without an exception - the handler field holds a handler of the
    same class, with the same session id and the same HTTP/3 layer. *)
Theorem handler_never_replaced `{Transport} (http : option H3Ref)
    (h : Handler) (tr : list Call) :
  let p := {| _http := http; _handler := Some h |} in
  (forall event,
     handler_identity <$> _handler (self (_h3_event_received event p tr)) =
     Some (handler_identity h)) /\
  (forall event,
     handler_identity <$> _handler (self (quic_event_received event p tr)) =
     Some (handler_identity h)).
Proof.
  cbv zeta. split; intros event.
  { by apply _h3_event_received_keeps_identity. }
  rewrite quic_event_received_parts. unfold mbind, Py_bind.
  pose proof (on_quic_event_anatomy event http (Some h) tr) as (_ & h' & K & I).
  destruct (on_quic_event event {| _http := http; _handler := Some h |} tr)
    as [[[] | exn] p1 tr1]; cbn in K, I |- *.
  - apply (pass_to_h3_keeps
             (fun p => handler_identity <$> _handler p =
                       Some (handler_identity h))).
    + intros. by apply _h3_event_received_keeps_identity.
    + rewrite K. cbn. by rewrite I.
  - rewrite K. cbn. by rewrite I.
Qed.

(** ** The states a connection reaches *)

Lemma _h3_event_received_keeps_wired `{Transport} (event : H3Event) (p : t)
    (tr : list Call) :
  is_Some (_http p) /\ wired p ->
  let p' := self (_h3_event_received event p tr) in
  is_Some (_http p') /\ wired p'.
Proof.
  destruct p as [http handler]. intros [Hh W]. cbn in Hh.
  destruct (_h3_event_received_anatomy event http handler tr)
    as (new & _ & E & _ & _ & K).
  cbv zeta. split; [by rewrite E |]. unfold wired in *. rewrite E.
  cbn in W. destruct handler as [h |].
  - destruct K as (h' & -> & I). by rewrite I.
  - destruct K as (_ & _ & K).
    destruct (_handler (self _)) as [h' |]; [| done].
    split; [done |]. by rewrite (K h' eq_refl).
Qed.

Lemma quic_event_received_keeps_wired `{Transport} (event : QuicEvent)
    (p : t) (tr : list Call) :
  wired p -> wired (self (quic_event_received event p tr)).
Proof.
  destruct p as [http handler]. intros W.
  rewrite quic_event_received_parts. unfold mbind, Py_bind.
  pose proof (on_quic_event_anatomy event http handler tr) as [Hh K].
  assert (wired
            (self (on_quic_event event
                     {| _http := http; _handler := handler |} tr))) as W1.
  { unfold wired in *. cbn in W. destruct handler as [h |].
    - destruct K as (h' & -> & I). rewrite <- I. destruct W as [W1 W2].
      split; [by apply Hh | done].
    - by rewrite K. }
  destruct (on_quic_event event {| _http := http; _handler := handler |} tr)
    as [[[] | exn] p1 tr1]; cbn in W1 |- *; [| done].
  destruct (_http p1) as [c |] eqn:E.
  - apply (pass_to_h3_keeps (fun p => is_Some (_http p) /\ wired p)).
    + intros. by apply _h3_event_received_keeps_wired.
    + by rewrite E.
  - destruct p1 as [http1 handler1]. cbn in E. by subst http1.
Qed.

(** X11. In every state a connection reaches from [__init__] through
    [quic_event_received] - whatever the QUIC events, whatever aioquic
    decodes from them, whether the calls returned or raised - a handler,
    if there is one, has an HTTP/3 layer, and so has the connection. *)
Theorem reachable_wired `{Transport} (p : t) (tr : list Call) :
  reachable p tr -> wired p.
Proof.
  induction 1 as [| event p tr _ IH]; [done |].
  by apply quic_event_received_keeps_wired.
Qed.

Lemma reachable_wired_witness :
  wired
    (self (quic_event_received (H := request_transport)
             (StreamDataReceived "/audio/echo/stream" false 0)
             (self (quic_event_received (H := request_transport)
                      (ProtocolNegotiated (Some "h3")) __init__ []))
             (trace (quic_event_received (H := request_transport)
                       (ProtocolNegotiated (Some "h3")) __init__ [])))).
Proof.
  eapply (@reachable_wired request_transport).
  apply (@reachable_event request_transport).
  apply (@reachable_event request_transport).
  apply (@reachable_init request_transport).
Defined.

Lemma handler_h3_event_received_returns `{Transport} (event : H3Event)
    (h : Handler) (tr : list Call) :
  is_Some (handler_identity h).2 ->
  outcome (handler_h3_event_received event h tr) = Return tt.
Proof.
  intros [c Hc].
  destruct h as [[s hh d] | [s hh d] | [s hh pr] | [s hh pr]];
    cbn in Hc; subst hh;
    destruct event as [| | data sid e es | data flow |]; try done.
  - unfold handler_h3_event_received, bound. cbn [outcome].
    by destruct (AudioEchoStream_chunk c s d data sid e es tr)
      as (d' & new & -> & _).
  - unfold handler_h3_event_received, bound. cbn [outcome].
    by destruct (VideoEchoStream_chunk c s d data sid e es tr)
      as (d' & new & -> & _).
Qed.

(** X12. In every state a connection reaches, the events the handlers echo
    - stream data and datagrams - never raise: [_h3_event_received]
    returns normally from each of them, with or without a handler and
    whatever the handler's class. *)
Theorem echo_events_never_raise `{Transport} (p : t) (tr tr' : list Call)
    (event : H3Event) :
  reachable p tr ->
  ignored_by_handlers event = false ->
  outcome (_h3_event_received event p tr') = Return tt.
Proof.
  intros R I. apply reachable_wired in R. destruct p as [http handler].
  unfold wired in R. cbn in R.
  assert (_h3_event_received event
            {| _http := http; _handler := handler |} tr' =
          forward event {| _http := http; _handler := handler |} tr') as ->.
  { by destruct event. }
  unfold forward. py_run. destruct handler as [h |]; [| done].
  cbn. apply handler_h3_event_received_returns. by destruct R.
Qed.

Lemma echo_events_never_raise_witness :
  outcome
    (_h3_event_received (H := request_transport)
       (WebTransportStreamDataReceived "abc" 2 false 0)
       (self (quic_event_received (H := request_transport)
                (ProtocolNegotiated (Some "h3")) __init__ [])) []) =
  Return tt.
Proof.
  apply (@echo_events_never_raise request_transport _
           (trace (quic_event_received (H := request_transport)
                     (ProtocolNegotiated (Some "h3")) __init__ []))).
  - apply (@reachable_event request_transport).
    apply (@reachable_init request_transport).
  - reflexivity.
Defined.

(** ** QUIC events *)

(** X13. On a connection that has no HTTP/3 layer and no handler yet, as
    [__init__] leaves it, every QUIC event but [ProtocolNegotiated] is
    dropped: no call, no change, no exception - a stream reset included.
    [ProtocolNegotiated] creates the HTTP/3 layer and is the first event
    handed to it; what that layer decodes from it is routed at once. *)
Theorem events_before_negotiation `{Transport} (event : QuicEvent)
    (tr : list Call) :
  match event with
  | ProtocolNegotiated _ =>
      let c := length (List.filter is_new_h3 tr) in
      let tr1 :=
        tr ++ [New_H3ConnectionWithDatagram true; Http_handle_event c event]
      in
      quic_event_received event __init__ tr =
      for_each (decoded_h3_events tr1) _h3_event_received
        {| _http := Some c; _handler := None |} tr1
  | _ => quic_event_received event __init__ tr = MkRun (Return tt) __init__ tr
  end.
Proof.
  destruct event; try done.
  unfold quic_event_received, new_H3ConnectionWithDatagram. py_run.
  by rewrite <- app_assoc.
Qed.

Lemma for_each_app {S A} (xs ys : list A) (body : A -> Py S unit) (s : S)
    (tr : list Call) :
  for_each (xs ++ ys) body s tr =
  (for_each xs body ;; for_each ys body) s tr.
Proof.
  revert s tr. induction xs as [| x xs IH]; intros s tr; [done |].
  cbn [app for_each]. unfold mbind, Py_bind in *.
  destruct (body x s tr) as [[[] | exn] s' tr']; [| done]. apply IH.
Qed.

(** X14. The HTTP/3 events decoded from one QUIC event are handled in
    order until one of them raises: that exception leaves
    [quic_event_received] with the state and the history of that moment,
    and the events decoded after it are never handled. *)
Theorem failing_event_drops_the_rest `{Transport} (c : H3Ref)
    (handler : option Handler) (data : bytes) (end_stream : bool)
    (quic_stream_id : Z) (before : list H3Event) (event : H3Event)
    (after : list H3Event) (p1 p2 : t) (tr tr1 tr2 : list Call)
    (exn : Exception) :
  let quic_event := StreamDataReceived data end_stream quic_stream_id in
  let p := {| _http := Some c; _handler := handler |} in
  let tr0 := tr ++ [Http_handle_event c quic_event] in
  decoded_h3_events tr0 = before ++ event :: after ->
  for_each before _h3_event_received p tr0 = MkRun (Return tt) p1 tr1 ->
  _h3_event_received event p1 tr1 = MkRun (Raise exn) p2 tr2 ->
  quic_event_received quic_event p tr = MkRun (Raise exn) p2 tr2.
Proof.
  intros quic_event p tr0 D B E. unfold quic_event_received. py_run.
  fold quic_event tr0 p. rewrite D, for_each_app.
  unfold mbind, Py_bind. rewrite B. cbn [for_each].
  unfold mbind, Py_bind. by rewrite E.
Qed.

Lemma failing_event_drops_the_rest_witness :
  quic_event_received (H := batch_transport) (StreamDataReceived "abc" false 4)
    {| _http := Some 0%nat; _handler := None |} [] =
  MkRun (Raise (AttributeError "NoneType" "session_closed"))
    {| _http := Some 0%nat; _handler := None |}
    [Http_handle_event 0%nat (StreamDataReceived "abc" false 4);
     Builtin_print "session closed!!!!!!"].
Proof.
  refine (@failing_event_drops_the_rest batch_transport 0%nat None "abc"
            false 4 [] (DataReceived close_capsule 4 true)
            [WebTransportStreamDataReceived "abc" 4 false 0]
            {| _http := Some 0%nat; _handler := None |} _ [] _ _ _ _ _ _);
    reflexivity.
Defined.

(** X15. A [StreamReset] event on a connection with a stream echo handler
    (audio or video) makes one [stream_closed] call, which removes the
    mapping of that stream and of no other and does not raise, whether the
    stream was mapped or not; with no handler no such call is made.  In
    both cases the event then goes to the HTTP/3 layer and what that layer
    decodes is routed. *)
Theorem stream_reset_cleans_up `{Transport} (c : H3Ref)
    (error_code stream_id : Z) (tr : list Call) :
  let reset := StreamReset error_code stream_id in
  let closed :=
    tr ++ [Handler_stream_closed stream_id; Http_handle_event c reset] in
  let passed := tr ++ [Http_handle_event c reset] in
  (forall session_id http d,
     quic_event_received reset
       {| _http := Some c;
          _handler :=
            Some (audio_echo_stream
                    (AudioEchoStream.Build_t session_id http d)) |} tr =
     for_each (decoded_h3_events closed) _h3_event_received
       {| _http := Some c;
          _handler :=
            Some (audio_echo_stream
                    (AudioEchoStream.Build_t session_id http
                       (delete stream_id d))) |} closed) /\
  (forall session_id http d,
     quic_event_received reset
       {| _http := Some c;
          _handler :=
            Some (video_echo_stream
                    (VideoEchoStream.Build_t session_id http d)) |} tr =
     for_each (decoded_h3_events closed) _h3_event_received
       {| _http := Some c;
          _handler :=
            Some (video_echo_stream
                    (VideoEchoStream.Build_t session_id http
                       (delete stream_id d))) |} closed) /\
  quic_event_received reset {| _http := Some c; _handler := None |} tr =
  for_each (decoded_h3_events passed) _h3_event_received
    {| _http := Some c; _handler := None |} passed.
Proof.
  cbv zeta. unfold quic_event_received. split; [| split].
  - intros. py_run. rewrite AudioEchoStream_stream_closed_run. py_run.
    by rewrite <- app_assoc.
  - intros. py_run. rewrite VideoEchoStream_stream_closed_run. py_run.
    by rewrite <- app_assoc.
  - by py_run.
Qed.
